(** * export_3mf: STL parts to a multi-colour 3MF package

    A shallow embedding of [hardware/nfc-sign/export_3mf.py] and the
    properties of its conversion pipeline.

    Modelling conventions.
    - A part is a Python dict with string keys: a [gmap string string].
      [part.get(k, d)] is [default d (part !! k)], [part[k]] raises
      [KeyError] when the key is absent.
    - The file system is a finite map from files to their contents.  A path
      names a file through [resolve] (two spellings of a path, or a link and
      its target, are one file).  A file is either something
      [mesh.Mesh.from_file] loads (kept as the [vectors] array it yields, one
      corner triple per triangle), an archive written by [zipfile], or
      anything else.  Whether an archive can be opened for writing at a path
      is the parameter [writable].
    - A coordinate is met at two levels.  [scalar] is the float32 value as
      the mesh holds it and as the table stores and prints it.  [coord] is
      that value up to the equality and hash Python uses for dictionary
      keys, a countable type with decidable equality; [key] takes the first
      to the second (the two zeros have one key; a NaN equals nothing, not
      even itself, so a mesh with NaN coordinates is read with a scalar of
      its own for each occurrence).  The properties of deduplication are
      stated on keys; what is emitted is stated on the stored scalars.
    - Exceptions are values of [exn]; a computation that may raise returns a
      [result].  [print] calls are not part of the model.
    - [xml.etree.ElementTree] elements are trees of tag, attributes and
      children.  An element is created, filled and attached in the source;
      here it is built whole and then appended, which yields the same tree.
    - The two library serialisers ([ET.tostring] followed by
      [minidom...toprettyxml]) and the [:.6f] float format are parameters. *)

From stdpp Require Import base option list strings gmap pretty.

Local Open Scope string_scope.
Local Open Scope list_scope.
Local Open Scope nat_scope.
Set Warnings "-register-all".

(** ** Exceptions *)

Inductive exn :=
| KeyError (key : string)
| IndexError
| DecodeError (path : string)
| XmlError
| OSError (path : string)
| SystemExit (code : nat).

Inductive result (A : Type) :=
| Ok (a : A)
| Raise (e : exn).
Arguments Ok {A} a.
Arguments Raise {A} e.

#[global] Instance result_ret : MRet result := λ A a, Ok a.
#[global] Instance result_bind : MBind result := λ A B f r,
  match r with
  | Ok a => f a
  | Raise e => Raise e
  end.

Definition from_option {A} (e : exn) (o : option A) : result A :=
  match o with
  | Some a => Ok a
  | None => Raise e
  end.

(** A [for] loop that builds a list, one element per iteration. *)
Fixpoint traverse {A B} (f : A → result B) (l : list A) : result (list B) :=
  match l with
  | [] => Ok []
  | x :: l' => y ← f x; ys ← traverse f l'; Ok (y :: ys)
  end.

(** A list comprehension with a condition that may raise. *)
Fixpoint filterM {A} (cond : A → result bool) (l : list A) : result (list A) :=
  match l with
  | [] => Ok []
  | x :: l' =>
      b ← cond x; ys ← filterM cond l';
      Ok (if b : bool then x :: ys else ys)
  end.

(** A [for] loop whose body may raise. *)
Fixpoint foldM {S A} (body : S → A → result S) (s : S) (l : list A) : result S :=
  match l with
  | [] => Ok s
  | x :: l' => s' ← body s x; foldM body s' l'
  end.

(** ** Characters and strings that need care *)

Definition dquote : string := String (Ascii.ascii_of_nat 34) EmptyString.
Definition newline : string := String (Ascii.ascii_of_nat 10) EmptyString.

(** [s.split('\n')]: never empty, a trailing newline gives a last empty
    field. *)
Fixpoint split_lines (s : string) : list string :=
  match s with
  | EmptyString => [EmptyString]
  | String c s' =>
      if Ascii.eqb c (Ascii.ascii_of_nat 10) then EmptyString :: split_lines s'
      else match split_lines s' with
           | [] => [String c EmptyString]
           | h :: t => String c h :: t
           end
  end.

(** ['\n'.join(fields)] *)
Fixpoint join_lines (fields : list string) : string :=
  match fields with
  | [] => EmptyString
  | [f] => f
  | f :: rest => f +:+ newline +:+ join_lines rest
  end.

(** [os.path.basename] on POSIX: what follows the last slash. *)
Fixpoint basename_go (acc s : string) : string :=
  match s with
  | EmptyString => acc
  | String c s' =>
      if Ascii.eqb c (Ascii.ascii_of_nat 47) then basename_go EmptyString s'
      else basename_go (acc +:+ String c EmptyString) s'
  end.
Definition basename (path : string) : string := basename_go EmptyString path.

(** [str(n)] for a non-negative integer. *)
Definition str (n : nat) : string := pretty n.

(** ** xml.etree.ElementTree *)

Module ET.

Inductive Element := mk {
  tag : string;
  attrib : list (string * string);
  children : list Element
}.

(** Assignment into an insertion-ordered dict. *)
Fixpoint dict_set (k v : string) (d : list (string * string)) : list (string * string) :=
  match d with
  | [] => [(k, v)]
  | (k', v') :: d' =>
      if decide (k = k') then (k, v) :: d' else (k', v') :: dict_set k v d'
  end.

Fixpoint dict_get (k : string) (d : list (string * string)) : option string :=
  match d with
  | [] => None
  | (k', v') :: d' => if decide (k = k') then Some v' else dict_get k d'
  end.

(** [ET.Element(tag)] *)
Definition new (t : string) : Element := mk t [] [].

(** [elem.set(key, value)] *)
Definition set (e : Element) (key value : string) : Element :=
  mk (tag e) (dict_set key value (attrib e)) (children e).

(** [elem.get(key)] *)
Definition get (e : Element) (key : string) : option string :=
  dict_get key (attrib e).

(** Attaching children, the effect of [ET.SubElement(parent, ...)] once
    each child is complete. *)
Definition extend (parent : Element) (cs : list Element) : Element :=
  mk (tag parent) (attrib parent) (children parent ++ cs).

(** [elem.findall(tag)] and [elem.find(tag)] on direct children. *)
Definition findall (e : Element) (t : string) : list Element :=
  filter (λ c, tag c = t) (children e).
Definition find (e : Element) (t : string) : option Element :=
  head (findall e t).

End ET.

(** ** Constants of the script *)

Definition ns_3mf : string :=
  "http://schemas.microsoft.com/3dmanufacturing/core/2015/02".
Definition ns_material : string :=
  "http://schemas.microsoft.com/3dmanufacturing/material/2015/02".
Definition tag_basematerials : string := "{" +:+ ns_material +:+ "}basematerials".
Definition tag_base : string := "{" +:+ ns_material +:+ "}base".
Definition default_color : string := "#808080".
Definition default_output_file : string := "nfc_sign_multicolor.3mf".

Definition xml_declaration : string :=
  "<?xml version=" +:+ dquote +:+ "1.0" +:+ dquote +:+
  " encoding=" +:+ dquote +:+ "UTF-8" +:+ dquote +:+ "?>".

Definition content_types : string :=
  xml_declaration +:+ newline +:+
  "<Types xmlns=" +:+ dquote +:+
  "http://schemas.openxmlformats.org/package/2006/content-types" +:+ dquote +:+ ">"
  +:+ newline +:+
  "  <Default Extension=" +:+ dquote +:+ "rels" +:+ dquote +:+ " ContentType=" +:+ dquote +:+
  "application/vnd.openxmlformats-package.relationships+xml" +:+ dquote +:+ "/>"
  +:+ newline +:+
  "  <Default Extension=" +:+ dquote +:+ "model" +:+ dquote +:+ " ContentType=" +:+ dquote +:+
  "application/vnd.ms-package.3dmanufacturing-3dmodel+xml" +:+ dquote +:+ "/>"
  +:+ newline +:+
  "</Types>".

Definition rels : string :=
  xml_declaration +:+ newline +:+
  "<Relationships xmlns=" +:+ dquote +:+
  "http://schemas.openxmlformats.org/package/2006/relationships" +:+ dquote +:+ ">"
  +:+ newline +:+
  "  <Relationship Target=" +:+ dquote +:+ "/3D/3dmodel.model" +:+ dquote +:+
  " Id=" +:+ dquote +:+ "rel0" +:+ dquote +:+ " Type=" +:+ dquote +:+
  "http://schemas.microsoft.com/3dmanufacturing/2013/01/3dmodel" +:+ dquote +:+ "/>"
  +:+ newline +:+
  "</Relationships>".

Definition entry_content_types : string := "[Content_Types].xml".
Definition entry_rels : string := "_rels/.rels".
Definition entry_model : string := "3D/3dmodel.model".

(** A part description: [{'file': ..., 'color': ..., 'name': ...}]. *)
Abbreviation part := (gmap string string).

Definition getitem (p : part) (key : string) : result string :=
  from_option (KeyError key) (p !! key).

Definition part_color (p : part) : string := default default_color (p !! "color").

Section Conversion.

Context {coord : Type} `{Countable coord} {scalar : Type}.

(** The dictionary key of a stored coordinate: its class under [==] and
    [hash]. *)
Variable key : scalar → coord.
(** [f"{x:.6f}"] *)
Variable fmt6 : scalar → string.
(** [minidom.parseString(ET.tostring(model, encoding='unicode'))
      .toprettyxml(indent="  ")]; [None] when either library call raises. *)
Variable toprettyxml : ET.Element → option string.
(** The file a path names. *)
Variable resolve : string → string.

(** Corner tuples and triangles, by key. *)
Definition vertex : Type := coord * coord * coord.
Definition raw_triangle : Type := vertex * vertex * vertex.

(** Corner tuples and triangles, as the mesh holds them. *)
Definition point : Type := scalar * scalar * scalar.
Definition facet : Type := point * point * point.

Definition key_point (v_tuple : point) : vertex :=
  (key v_tuple.1.1, key v_tuple.1.2, key v_tuple.2).
Definition key_facet (triangle : facet) : raw_triangle :=
  (key_point triangle.1.1, key_point triangle.1.2, key_point triangle.2).

(** *** Files *)

Inductive file :=
| MeshFile (vectors : list facet)
| ZipFile (entries : list (string * string))
| OtherFile.

Abbreviation filesystem := (gmap string file).

(** Whether the archive gets written at a path: [zipfile.ZipFile(path, 'w')]
    opens (the directory is there, the file may be created or replaced) and
    the three entries go through.  Otherwise the run raises [OSError]; a
    run that raises returns no file system, so what a failed write leaves
    behind is not described. *)
Variable writable : filesystem → string → bool.

(** [os.path.exists] *)
Definition path_exists (fs : filesystem) (path : string) : bool :=
  bool_decide (is_Some (fs !! resolve path)).

(** [mesh.Mesh.from_file(path).vectors]; the library raises on what it
    cannot read as a mesh. *)
Definition from_file (fs : filesystem) (path : string) : result (list facet) :=
  match fs !! resolve path with
  | Some (MeshFile vectors) => Ok vectors
  | _ => Raise (DecodeError path)
  end.

(** *** [stl_to_vertices_triangles], seen through the dictionary keys

    The loops with every tuple replaced by its key: what the dictionary
    sees.  The function as it runs, which also keeps the scalars, follows;
    [points_triangles_keys] relates the two. *)

Record dedup_state := DedupState {
  vertices : list vertex;
  vertex_map : gmap vertex nat
}.

Definition dedup_init : dedup_state := DedupState [] ∅.

(** Body of [for vertex in triangle]. *)
Definition vertex_step (acc : dedup_state * list nat) (v_tuple : vertex)
  : dedup_state * list nat :=
  let '(st, tri_indices) := acc in
  let st' :=
    if decide (vertex_map st !! v_tuple = None)
    then DedupState (vertices st ++ [v_tuple])
                    (<[v_tuple := length (vertices st)]> (vertex_map st))
    else st in
  (st', tri_indices ++ [vertex_map st' !!! v_tuple]).

(** Body of [for triangle in stl_mesh.vectors]. *)
Definition triangle_step (acc : dedup_state * list (list nat)) (triangle : raw_triangle)
  : dedup_state * list (list nat) :=
  let '(st, triangles) := acc in
  let '(a, b, c) := triangle in
  let '(st', tri_indices) := foldl vertex_step (st, []) [a; b; c] in
  (st', triangles ++ [tri_indices]).

Definition dedup_loop (vectors : list raw_triangle) : dedup_state * list (list nat) :=
  foldl triangle_step (dedup_init, []) vectors.

(** The two loops of the function, on an already decoded mesh. *)
Definition vertices_triangles (vectors : list raw_triangle)
  : list vertex * list (list nat) :=
  let '(st, triangles) := dedup_loop vectors in (vertices st, triangles).

(** *** [stl_to_vertices_triangles], with the tuples it stores

    The dictionary is keyed by the tuple's key; [vertices.append(v_tuple)]
    keeps the tuple itself, so the table holds the scalars of the first
    corner met with each key. *)

Record stored_state := StoredState {
  stored : list point;
  stored_map : gmap vertex nat
}.

Definition stored_init : stored_state := StoredState [] ∅.

(** Body of [for vertex in triangle]. *)
Definition point_step (acc : stored_state * list nat) (v_tuple : point)
  : stored_state * list nat :=
  let '(st, tri_indices) := acc in
  let st' :=
    if decide (stored_map st !! key_point v_tuple = None)
    then StoredState (stored st ++ [v_tuple])
                     (<[key_point v_tuple := length (stored st)]> (stored_map st))
    else st in
  (st', tri_indices ++ [stored_map st' !!! key_point v_tuple]).

(** Body of [for triangle in stl_mesh.vectors]. *)
Definition facet_step (acc : stored_state * list (list nat)) (triangle : facet)
  : stored_state * list (list nat) :=
  let '(st, triangles) := acc in
  let '(a, b, c) := triangle in
  let '(st', tri_indices) := foldl point_step (st, []) [a; b; c] in
  (st', triangles ++ [tri_indices]).

Definition stored_loop (vectors : list facet) : stored_state * list (list nat) :=
  foldl facet_step (stored_init, []) vectors.

Definition points_triangles (vectors : list facet) : list point * list (list nat) :=
  let '(st, triangles) := stored_loop vectors in (stored st, triangles).

Definition stl_to_vertices_triangles (fs : filesystem) (stl_file : string)
  : result (list point * list (list nat)) :=
  vectors ← from_file fs stl_file;
  Ok (points_triangles vectors).

(** *** [create_3mf], lines 80-89: the colour table *)

Record color_state := ColorState {
  bases : list ET.Element;
  color_map : gmap string nat;
  color_id : nat
}.

Definition color_init : color_state := ColorState [] ∅ 0.

Definition base_element (name color : string) : ET.Element :=
  ET.set (ET.set (ET.new tag_base) "name" name) "displaycolor" color.

Definition base_name (color_id : nat) (p : part) : string :=
  default ("Color_" +:+ str color_id) (p !! "name").

Definition color_step (st : color_state) (p : part) : color_state :=
  let color := part_color p in
  if decide (color_map st !! color = None)
  then ColorState (bases st ++ [base_element (base_name (color_id st) p) color])
                  (<[color := color_id st]> (color_map st))
                  (S (color_id st))
  else st.

Definition color_loop (parts : list part) : color_state :=
  foldl color_step color_init parts.

(** *** [create_3mf], lines 91-132: one object per located part *)

Definition vertex_element (v : point) : ET.Element :=
  let '(x, y, z) := v in
  ET.set (ET.set (ET.set (ET.new "vertex") "x" (fmt6 x)) "y" (fmt6 y)) "z" (fmt6 z).

Definition triangle_element (t : list nat) : result ET.Element :=
  v1 ← from_option IndexError (t !! 0);
  v2 ← from_option IndexError (t !! 1);
  v3 ← from_option IndexError (t !! 2);
  Ok (ET.set (ET.set (ET.set (ET.new "triangle") "v1" (str v1)) "v2" (str v2))
             "v3" (str v3)).

Definition object_element (object_id : nat) (name : string) (color_idx : nat)
    (vertex_elems triangle_elems : list ET.Element) : ET.Element :=
  let obj := ET.new "object" in
  let obj := ET.set obj "id" (str object_id) in
  let obj := ET.set obj "type" "model" in
  let obj := ET.set obj "name" name in
  let obj := ET.set obj "pid" "1" in
  let obj := ET.set obj "pindex" (str color_idx) in
  let vertices_elem := ET.extend (ET.new "vertices") vertex_elems in
  let triangles_elem := ET.extend (ET.new "triangles") triangle_elems in
  let mesh_elem := ET.extend (ET.new "mesh") [vertices_elem; triangles_elem] in
  ET.extend obj [mesh_elem].

Record object_state := ObjectState {
  objects : list ET.Element;
  object_id : nat;
  build_items : list nat
}.

Definition object_init : object_state := ObjectState [] 2 [].

Definition object_step (fs : filesystem) (color_map : gmap string nat)
    (st : object_state) (p : part) : result object_state :=
  stl_file ← getitem p "file";
  if path_exists fs stl_file then
    '(vertices, triangles) ← stl_to_vertices_triangles fs stl_file;
    let color_idx := default 0 (color_map !! part_color p) in
    let name := default (basename stl_file) (p !! "name") in
    triangle_elems ← traverse triangle_element triangles;
    Ok (ObjectState
          (objects st ++ [object_element (object_id st) name color_idx
                            (vertex_element <$> vertices) triangle_elems])
          (S (object_id st))
          (build_items st ++ [object_id st]))
  else Ok st.

Definition object_loop (fs : filesystem) (color_map : gmap string nat)
    (parts : list part) : result object_state :=
  foldM (object_step fs color_map) object_init parts.

(** *** [create_3mf], lines 63-78 and 134-138: the document around them *)

Definition item_element (item_id : nat) : ET.Element :=
  ET.set (ET.new "item") "objectid" (str item_id).

Definition model_element (cs : color_state) (os : object_state) : ET.Element :=
  let model := ET.new "model" in
  let model := ET.set model "unit" "millimeter" in
  let model := ET.set model "xmlns" ns_3mf in
  let model := ET.set model "xmlns:m" ns_material in
  let basematerials :=
    ET.extend (ET.set (ET.new tag_basematerials) "id" "1") (bases cs) in
  let resources := ET.extend (ET.new "resources") (basematerials :: objects os) in
  let build := ET.extend (ET.new "build") (item_element <$> build_items os) in
  ET.extend model [resources; build].

(** Lines 63-138: everything up to the finished element tree. *)
Definition build_model (parts : list part) (fs : filesystem) : result ET.Element :=
  let cs := color_loop parts in
  os ← object_loop fs (color_map cs) parts;
  Ok (model_element cs os).

(** Lines 140-146. *)
Definition model_document (model : ET.Element) : result string :=
  xml_str ← from_option XmlError (toprettyxml model);
  let xml_str := join_lines (tail (split_lines xml_str)) in
  Ok (xml_declaration +:+ newline +:+ xml_str).

(** Lines 148-165: the archive holds the three [writestr] entries, in
    order. *)
Definition package (xml_str : string) : file :=
  ZipFile [(entry_content_types, content_types);
           (entry_rels, rels);
           (entry_model, xml_str)].

Definition create_3mf (parts : list part) (output_file : string) (fs : filesystem)
  : result (string * filesystem) :=
  model ← build_model parts fs;
  xml_str ← model_document model;
  if writable fs output_file
  then Ok (output_file, <[resolve output_file := package xml_str]> fs)
  else Raise (OSError output_file).

(** *** The command-line entry point, lines 171-214 *)

Definition mk_part (f color name : string) : part :=
  <["file" := f]> (<["color" := color]> (<["name" := name]> ∅)).

Definition main_parts : list part :=
  [ mk_part "sign_plate.stl" "#F5F5F0" "Sign Base";
    mk_part "sign_elements.stl" "#1A1A1A" "Sign Text";
    mk_part "stand.stl" "#1A1A1A" "Stand";
    mk_part "frame.stl" "#1A1A1A" "Frame" ].

Definition source_exists (fs : filesystem) (p : part) : result bool :=
  f ← getitem p "file"; Ok (path_exists fs f).

Definition main (fs : filesystem) : result filesystem :=
  existing_parts ← filterM (source_exists fs) main_parts;
  match existing_parts with
  | [] => Raise (SystemExit 1)
  | _ => '(_, fs') ← create_3mf existing_parts default_output_file fs; Ok fs'
  end.

(** Running the file: the guarded imports of lines 24-32 come first and
    exit with status 1 when a dependency is missing. *)
Definition script (imports_ok : bool) (fs : filesystem) : result filesystem :=
  if imports_ok then main fs else Raise (SystemExit 1).

(** *** Reading a deduplicated mesh back *)

(** The corner triple a triangle of indices stands for. *)
Definition expand_triangle (vertices : list vertex) (t : list nat) : option raw_triangle :=
  match t with
  | [i1; i2; i3] =>
      a ← vertices !! i1; b ← vertices !! i2; c ← vertices !! i3; Some (a, b, c)
  | _ => None
  end.

(** The raw triangles a vertex table and its index triangles stand for. *)
Definition expand (vertices : list vertex) (triangles : list (list nat))
  : option (list raw_triangle) :=
  mapM (expand_triangle vertices) triangles.

(** All corners of a mesh, in the order the loops visit them. *)
Definition corners (vectors : list raw_triangle) : list vertex :=
  '(a, b, c) ← vectors; [a; b; c].

(** What the vertex map has to agree with while the table grows. *)
Definition dedup_inv (st : dedup_state) : Prop :=
  ∀ v i, vertex_map st !! v = Some i ↔ vertices st !! i = Some v.

(** *** Observations on parts and on the emitted document *)

(** The part survives the existence check of the second loop. *)
Definition located (fs : filesystem) (p : part) : bool :=
  match p !! "file" with
  | Some stl_file => path_exists fs stl_file
  | None => false
  end.

(** The [name] attribute the second loop gives the object of a part. *)
Definition object_name (p : part) : string :=
  default (basename (default EmptyString (p !! "file"))) (p !! "name").

Definition doc_basematerials (model : ET.Element) : option ET.Element :=
  resources ← ET.find model "resources"; ET.find resources tag_basematerials.

Definition doc_objects (model : ET.Element) : option (list ET.Element) :=
  resources ← ET.find model "resources"; Some (ET.findall resources "object").

Definition doc_items (model : ET.Element) : option (list ET.Element) :=
  build ← ET.find model "build"; Some (ET.findall build "item").

(** Attribute [key] of [e] is the decimal form of a number below [bound]. *)
Definition index_below (bound : nat) (e : ET.Element) (key : string) : Prop :=
  ∃ i, ET.get e key = Some (str i) ∧ i < bound.

(** The triangles of an object index its own vertices block, and its
    [pindex] one of [materials] base materials. *)
Definition object_in_range (materials : nat) (obj : ET.Element) : Prop :=
  ∃ mesh_elem vertices_elem triangles_elem,
    ET.find obj "mesh" = Some mesh_elem
    ∧ ET.find mesh_elem "vertices" = Some vertices_elem
    ∧ ET.find mesh_elem "triangles" = Some triangles_elem
    ∧ index_below materials obj "pindex"
    ∧ Forall (λ t, index_below (length (ET.children vertices_elem)) t "v1"
                   ∧ index_below (length (ET.children vertices_elem)) t "v2"
                   ∧ index_below (length (ET.children vertices_elem)) t "v3")
             (ET.children triangles_elem).

(** What a run left at the path it returned. *)
Definition written (r : result (string * filesystem)) : result (option file) :=
  '(output_file, fs) ← r; Ok (fs !! resolve output_file).

(** Two file systems hold the same thing at every source the parts name. *)
Definition same_sources (parts : list part) (fs1 fs2 : filesystem) : Prop :=
  ∀ p stl_file, p ∈ parts → p !! "file" = Some stl_file →
    fs1 !! resolve stl_file = fs2 !! resolve stl_file.

(** *** Invariant of the colour table *)

(** What the first loop maintains once it has gone through [seen]. *)
Definition color_inv (st : color_state) (seen : list part) : Prop :=
  color_id st = length (bases st)
  ∧ (∀ c i, color_map st !! c = Some i ↔ ∃ n, bases st !! i = Some (base_element n c))
  ∧ (∀ c, is_Some (color_map st !! c) ↔ c ∈ part_color <$> seen)
  ∧ Forall (λ b, ET.tag b = tag_base) (bases st).

(** *** Two readings of the specification, to be compared with the code *)

(** Section 8, empty input: with no part, or no part located, the conversion
    fails and so leaves no package behind. *)
Definition empty_input_refused (parts : list part) (output_file : string)
    (fs : filesystem) : Prop :=
  Forall (λ p, located fs p = false) parts →
  ∃ e, create_3mf parts output_file fs = Raise e.

(** Section 4.4, step 1 against step 2: a colour that only skipped parts
    carry is in neither the colour table nor the basematerials block. *)
Definition skipped_colors_absent (parts : list part) (fs : filesystem) : Prop :=
  ∀ model basematerials color,
    build_model parts fs = Ok model →
    doc_basematerials model = Some basematerials →
    color ∈ part_color <$> parts →
    (∀ p, p ∈ parts → part_color p = color → located fs p = false) →
    color_map (color_loop parts) !! color = None
    ∧ ∀ b, b ∈ ET.children basematerials → ET.get b "displaycolor" ≠ Some color.

End Conversion.

Fixpoint has_newline (s : string) : bool :=
  match s with
  | EmptyString => false
  | String c s' => Ascii.eqb c (Ascii.ascii_of_nat 10) || has_newline s'
  end.

Definition first_line (s : string) : option string := head (split_lines s).

(** ** Further observations *)

(** The elements of a list, each kept at its first occurrence only. *)
Fixpoint first_seen {A} `{EqDecision A} (l : list A) : list A :=
  match l with
  | [] => []
  | x :: l' => x :: filter (λ y, y ≠ x) (first_seen l')
  end.

(** The colours shown by the entries, in entry order. *)
Definition displaycolors (entries : list ET.Element) : list (option string) :=
  (λ b, ET.get b "displaycolor") <$> entries.

Section Observations.

Context {coord : Type} `{Countable coord} {scalar : Type}.
Variable key : scalar → coord.
Variable fmt6 : scalar → string.
Variable resolve : string → string.
Implicit Types (fs : gmap string (file (scalar:=scalar))) (p : part).


(** The stored table goes with the table of keys. *)
Definition stored_abs (st : stored_state (coord:=coord) (scalar:=scalar))
  : dedup_state (coord:=coord) :=
  DedupState (key_point key <$> stored st) (stored_map st).

(** The mesh [from_file] loads for a part, when it loads one. *)
Definition mesh_of fs p : option (list (facet (scalar:=scalar))) :=
  stl_file ← p !! "file";
  match fs !! resolve stl_file with
  | Some (MeshFile vectors) => Some vectors
  | _ => None
  end.

(** A vertex element carries the three formatted coordinates of [v]. *)
Definition vertex_shows (e : ET.Element) (v : point (scalar:=scalar)) : Prop :=
  ET.tag e = "vertex"
  ∧ ET.get e "x" = Some (fmt6 v.1.1)
  ∧ ET.get e "y" = Some (fmt6 v.1.2)
  ∧ ET.get e "z" = Some (fmt6 v.2).

(** All corners of a mesh as it holds them, in the order the loops visit
    them. *)
Definition facet_corners (vectors : list (facet (scalar:=scalar)))
  : list (point (scalar:=scalar)) :=
  '(a, b, c) ← vectors; [a; b; c].

(** [v'] is the first corner of the mesh that has the key of [v]. *)
Definition first_with_key (vectors : list (facet (scalar:=scalar)))
    (v v' : point (scalar:=scalar)) : Prop :=
  key_point key v' = key_point key v
  ∧ ∃ n, facet_corners vectors !! n = Some v'
         ∧ ∀ m r, m < n → facet_corners vectors !! m = Some r →
                  key_point key r ≠ key_point key v.

(** What the stored table keeps while it grows over the corners [seen]. *)
Definition stored_inv (st : stored_state (coord:=coord) (scalar:=scalar))
    (seen : list (point (scalar:=scalar))) : Prop :=
  dedup_inv (stored_abs st)
  ∧ (∀ k, is_Some (stored_map st !! k) ↔ k ∈ key_point key <$> seen)
  ∧ ∀ i v', stored st !! i = Some v' →
      ∃ n, seen !! n = Some v'
           ∧ ∀ m r, m < n → seen !! m = Some r → key_point key r ≠ key_point key v'.

(** The part names a file and [from_file] will not raise on it. *)
Definition readable fs p : Prop :=
  ∃ f, p !! "file" = Some f
       ∧ (fs !! resolve f = None
          ∨ ∃ vectors, fs !! resolve f = Some (MeshFile vectors)).

(** What a part can make the second loop raise. *)
Definition part_failure fs p (e : exn) : Prop :=
  (p !! "file" = None ∧ e = KeyError "file")
  ∨ ∃ f, p !! "file" = Some f ∧ e = DecodeError f
         ∧ is_Some (fs !! resolve f)
         ∧ ∀ vectors, fs !! resolve f ≠ Some (MeshFile vectors).

End Observations.

(** ** Sample data: integer keys, signed magnitudes, a trivial serialiser *)

Module Sample.

(** A stored coordinate is a sign and a magnitude, so that there are two
    zeros; its key is the integer it denotes. *)
Definition scalar : Type := bool * N.

Definition key (x : scalar) : Z :=
  if x.1 then (- Z.of_N x.2)%Z else Z.of_N x.2.

Definition fmt6 (x : scalar) : string :=
  (if x.1 then "-" else EmptyString) +:+ pretty x.2 +:+ ".000000".

Definition of_Z (x : Z) : scalar := (Z.ltb x 0, Z.abs_N x).

Definition toprettyxml (e : ET.Element) : option string :=
  Some ("<?xml version=" +:+ dquote +:+ "1.0" +:+ dquote +:+ " ?>" +:+ newline
        +:+ "<" +:+ ET.tag e +:+ "/>" +:+ newline).

(** Paths are relative to one directory; a leading [./] changes nothing. *)
Fixpoint resolve (path : string) : string :=
  match path with
  | String c (String d rest) =>
      if Ascii.eqb c (Ascii.ascii_of_nat 46) && Ascii.eqb d (Ascii.ascii_of_nat 47)
      then resolve rest else path
  | _ => path
  end.

Fixpoint has_slash (path : string) : bool :=
  match path with
  | EmptyString => false
  | String c rest => Ascii.eqb c (Ascii.ascii_of_nat 47) || has_slash rest
  end.

(** The directory is writable and has no subdirectory. *)
Definition writable (fs : gmap string (file (scalar := scalar))) (path : string) : bool :=
  negb (has_slash (resolve path)).

Definition pt (x y z : Z) : vertex (coord := Z) := (x, y, z).

(** A unit square cut along a diagonal: two triangles, one shared edge. *)
Definition square : list (raw_triangle (coord := Z)) :=
  [ (pt 0 0 0, pt 1 0 0, pt 0 1 0); (pt 1 0 0, pt 1 1 0, pt 0 1 0) ].

Definition spt (x y z : Z) : point (scalar := scalar) := (of_Z x, of_Z y, of_Z z).

(** The same square as a mesh holds it. *)
Definition stored_square : list (facet (scalar := scalar)) :=
  [ (spt 0 0 0, spt 1 0 0, spt 0 1 0); (spt 1 0 0, spt 1 1 0, spt 0 1 0) ].

(** Two triangles that meet at the origin, written once with a negative
    zero and once with a positive one. *)
Definition minus_zero : scalar := (true, 0%N).
Definition two_zeros : list (facet (scalar := scalar)) :=
  [ ((minus_zero, of_Z 0, of_Z 0), spt 1 0 0, spt 0 1 0);
    (spt 0 0 0, spt 0 1 0, spt 0 0 1) ].

Definition disk : gmap string (file (scalar := scalar)) :=
  <["a.stl" := MeshFile stored_square]>
    (<["c.stl" := MeshFile stored_square]>
       (<["z.stl" := MeshFile two_zeros]> ∅)).

(** Three parts, the second without a file on [disk]. *)
Definition three_parts : list part :=
  [ mk_part "a.stl" "#1A1A1A" "Plate";
    mk_part "b.stl" "#FF0000" "Ghost";
    mk_part "c.stl" "#1A1A1A" "Stand" ].

Definition ghost_only : list part := [ mk_part "b.stl" "#FF0000" "Ghost" ].

(** The document of [three_parts] on [disk]. *)
Definition three_model : ET.Element :=
  Eval vm_compute in
    match build_model key fmt6 resolve three_parts disk with
    | Ok model => model
    | Raise _ => ET.new EmptyString
    end.

(** [disk] with one more file, which no part names. *)
Definition disk_with_notes : gmap string (file (scalar := scalar)) :=
  <["notes.txt" := OtherFile]> disk.

(** A part description without a ['file'] entry. *)
Definition nameless : part := <["color" := "#00FF00"]> ∅.

(** The second of the [three_parts] whose file is on [disk]. *)
Definition stand : part := mk_part "c.stl" "#1A1A1A" "Stand".

(** A part for the mesh with the two zeros, and its document. *)
Definition zeros : part := mk_part "./z.stl" "#00FF00" "Zeros".

Definition zeros_model : ET.Element :=
  Eval vm_compute in
    match build_model key fmt6 resolve [zeros] disk with
    | Ok model => model
    | Raise _ => ET.new EmptyString
    end.

(** [disk] after [three_parts] went to [./out.3mf]. *)
Definition disk_after : gmap string (file (scalar := scalar)) :=
  Eval vm_compute in
    match create_3mf key fmt6 toprettyxml resolve writable three_parts "./out.3mf" disk with
    | Ok (_, fs') => fs'
    | Raise _ => ∅
    end.

End Sample.



(** * Properties *)

(** ** Vertex deduplication *)

Section DedupProperties.
Context {coord : Type} `{Countable coord}.
Implicit Types (st : dedup_state (coord:=coord)) (v : vertex (coord:=coord)).

Lemma dedup_inv_init : dedup_inv (coord:=coord) dedup_init.
Proof. intros v i. simpl. rewrite lookup_empty, lookup_nil. split; discriminate. Qed.

Lemma vertex_step_spec st tri v :
  dedup_inv st →
  ∃ st' i, vertex_step (st, tri) v = (st', tri ++ [i])
    ∧ dedup_inv st'
    ∧ vertices st `prefix_of` vertices st'
    ∧ vertices st' !! i = Some v
    ∧ (∀ x, x ∈ vertices st' ↔ x ∈ vertices st ∨ x = v)
    ∧ length (vertices st') ≤ S (length (vertices st)).
Proof.
  intros Hinv. unfold vertex_step.
  destruct (decide (vertex_map st !! v = None)) as [Hnew|Hold].
  - exists (DedupState (vertices st ++ [v]) (<[v := length (vertices st)]> (vertex_map st))),
      (length (vertices st)).
    simpl. rewrite lookup_total_insert_eq. split; [done|].
    split; [|split; [by apply prefix_app_r|split; [by rewrite list_lookup_middle|split]]].
    + intros w j. simpl.
      destruct (decide (v = w)) as [->|Hne].
      * rewrite lookup_insert_eq. split.
        -- intros [= <-]. by rewrite list_lookup_middle.
        -- intros Hj. f_equal.
           destruct (decide (j < length (vertices st))) as [Hlt|Hge].
           ++ rewrite lookup_app_l in Hj by done. apply Hinv in Hj. congruence.
           ++ apply lookup_lt_Some in Hj. rewrite length_app in Hj. simpl in Hj. lia.
      * rewrite lookup_insert_ne by done. rewrite (Hinv w j). split.
        -- intros Hj. by apply lookup_app_l_Some.
        -- intros Hj. apply lookup_app_Some in Hj as [Hj|[_ Hj]]; [done|].
           apply list_lookup_singleton_Some in Hj as [_ ?]. congruence.
    + intros x. rewrite elem_of_app, list_elem_of_singleton. done.
    + rewrite length_app. simpl. lia.
  - destruct (vertex_map st !! v) as [i|] eqn:Hi; [|done].
    exists st, i. rewrite (lookup_total_correct _ _ _ Hi).
    split; [done|]. split; [done|]. split; [done|].
    apply Hinv in Hi. split; [done|]. split; [|lia].
    intros x. split; [by left|]. intros [?| ->]; [done|].
    by eapply list_elem_of_lookup_2.
Qed.

Lemma expand_triangle_prefix (vs vs' : list (vertex (coord:=coord))) t r :
  vs `prefix_of` vs' → expand_triangle vs t = Some r → expand_triangle vs' t = Some r.
Proof.
  intros [k ->]. destruct t as [|i1 [|i2 [|i3 [|]]]]; simpl; try done.
  intros Hr.
  destruct (vs !! i1) as [a|] eqn:H1; [|done].
  destruct (vs !! i2) as [b|] eqn:H2; [|done].
  destruct (vs !! i3) as [c|] eqn:H3; [|done].
  by rewrite (lookup_app_l_Some _ _ _ _ H1), (lookup_app_l_Some _ _ _ _ H2),
    (lookup_app_l_Some _ _ _ _ H3).
Qed.

Lemma expand_prefix (vs vs' : list (vertex (coord:=coord))) ts rs :
  vs `prefix_of` vs' → expand vs ts = Some rs → expand vs' ts = Some rs.
Proof.
  intros Hpre. unfold expand. rewrite !mapM_Some.
  intros Hrs. eapply Forall2_impl; [exact Hrs|].
  intros t r. by apply expand_triangle_prefix.
Qed.

Lemma triangle_step_spec st tris a b c :
  dedup_inv st →
  ∃ st' i1 i2 i3, triangle_step (st, tris) (a, b, c) = (st', tris ++ [[i1; i2; i3]])
    ∧ dedup_inv st'
    ∧ vertices st `prefix_of` vertices st'
    ∧ expand_triangle (vertices st') [i1; i2; i3] = Some (a, b, c)
    ∧ (∀ x, x ∈ vertices st' ↔ x ∈ vertices st ∨ x ∈ [a; b; c])
    ∧ length (vertices st') ≤ 3 + length (vertices st).
Proof.
  intros Hinv. unfold triangle_step. cbn [foldl].
  destruct (vertex_step_spec st [] a Hinv) as (st1 & i1 & -> & Hinv1 & Hp1 & Hl1 & He1 & Hn1).
  destruct (vertex_step_spec st1 ([] ++ [i1]) b Hinv1)
    as (st2 & i2 & -> & Hinv2 & Hp2 & Hl2 & He2 & Hn2).
  destruct (vertex_step_spec st2 (([] ++ [i1]) ++ [i2]) c Hinv2)
    as (st3 & i3 & -> & Hinv3 & Hp3 & Hl3 & He3 & Hn3).
  exists st3, i1, i2, i3. simpl. split; [done|]. split; [done|].
  split; [by etrans; [|etrans]|]. split.
  - destruct Hp3 as [k3 E3]. destruct Hp2 as [k2 E2].
    rewrite E3. rewrite (lookup_app_l_Some _ _ _ _ Hl2). simpl.
    rewrite E2, <- (assoc_L (++)). rewrite (lookup_app_l_Some _ _ _ _ Hl1). simpl.
    rewrite (assoc_L (++)), <- E2, <- E3, Hl3. done.
  - split; [|lia]. intros x. rewrite He3, He2, He1.
    rewrite !elem_of_cons, elem_of_nil. tauto.
Qed.

Lemma dedup_loop_spec (vectors : list (raw_triangle (coord:=coord))) :
  ∃ st tris, dedup_loop vectors = (st, tris)
    ∧ dedup_inv st
    ∧ expand (vertices st) tris = Some vectors
    ∧ (∀ x, x ∈ vertices st ↔ x ∈ corners vectors)
    ∧ length (vertices st) ≤ 3 * length vectors.
Proof.
  unfold dedup_loop.
  induction vectors as [|[[a b] c] vectors IH] using rev_ind.
  - exists dedup_init, []. simpl. split; [done|]. split; [apply dedup_inv_init|].
    split; [done|]. split; [|lia]. intros x. done.
  - destruct IH as (st & tris & E & Hinv & Hexp & Hel & Hlen).
    rewrite foldl_snoc, E.
    destruct (triangle_step_spec st tris a b c Hinv)
      as (st' & i1 & i2 & i3 & -> & Hinv' & Hpre & Ht & Hel' & Hlen').
    exists st', (tris ++ [[i1; i2; i3]]). split; [done|]. split; [done|].
    split; [|split].
    + unfold expand. apply mapM_Some, Forall2_app.
      * apply mapM_Some. by eapply expand_prefix.
      * by constructor.
    + intros x. rewrite Hel', Hel. unfold corners. rewrite bind_app, elem_of_app.
      simpl. done.
    + rewrite length_app. simpl. lia.
Qed.

Lemma dedup_inv_NoDup st : dedup_inv st → NoDup (vertices st).
Proof.
  intros Hinv. apply NoDup_alt. intros i j v Hi Hj.
  apply Hinv in Hi, Hj. congruence.
Qed.

Lemma vertices_triangles_spec (vectors : list (raw_triangle (coord:=coord))) :
  ∃ vs ts, vertices_triangles vectors = (vs, ts)
    ∧ NoDup vs
    ∧ expand vs ts = Some vectors
    ∧ (∀ x, x ∈ vs ↔ x ∈ corners vectors)
    ∧ length vs ≤ 3 * length vectors.
Proof.
  destruct (dedup_loop_spec vectors) as (st & ts & E & Hinv & Hexp & Hel & Hlen).
  exists (vertices st), ts. unfold vertices_triangles. rewrite E.
  split; [done|]. split; [by apply dedup_inv_NoDup|]. done.
Qed.

Lemma expand_length (vs : list (vertex (coord:=coord))) ts rs :
  expand vs ts = Some rs → length ts = length rs.
Proof. unfold expand. rewrite mapM_Some. apply Forall2_length. Qed.



End DedupProperties.

(** ** The stored table and the table of keys *)

Section StoredTable.
Context {coord : Type} `{Countable coord} {scalar : Type}.
Variable key : scalar → coord.
Implicit Types (st : stored_state (coord:=coord) (scalar:=scalar))
  (v : point (scalar:=scalar)).

Lemma point_step_abs st tri v :
  vertex_step (stored_abs key st, tri) (key_point key v)
  = (stored_abs key (point_step key (st, tri) v).1, (point_step key (st, tri) v).2).
Proof.
  unfold vertex_step, point_step, stored_abs. simpl. rewrite length_fmap.
  destruct (decide (stored_map st !! key_point key v = None)); simpl; [|done].
  by rewrite fmap_app.
Qed.

Lemma facet_step_abs st tris (t : facet (scalar:=scalar)) :
  triangle_step (stored_abs key st, tris) (key_facet key t)
  = (stored_abs key (facet_step key (st, tris) t).1, (facet_step key (st, tris) t).2).
Proof.
  destruct t as [[a b] c]. unfold triangle_step, facet_step, key_facet.
  cbn [foldl fst snd].
  rewrite (point_step_abs st [] a).
  destruct (point_step key (st, []) a) as [st1 t1]. cbn [fst snd].
  rewrite (point_step_abs st1 t1 b).
  destruct (point_step key (st1, t1) b) as [st2 t2]. cbn [fst snd].
  rewrite (point_step_abs st2 t2 c).
  by destruct (point_step key (st2, t2) c) as [st3 t3].
Qed.

Lemma stored_loop_abs (vectors : list (facet (scalar:=scalar))) :
  dedup_loop (key_facet key <$> vectors)
  = (stored_abs key (stored_loop key vectors).1, (stored_loop key vectors).2).
Proof.
  unfold dedup_loop, stored_loop.
  induction vectors as [|t vectors IH] using rev_ind; [done|].
  rewrite fmap_app, !foldl_snoc. simpl fmap. rewrite foldl_snoc, IH.
  destruct (foldl (facet_step key) (stored_init, []) vectors) as [st tris].
  apply facet_step_abs.
Qed.

(** The stored table, taken to keys, is the table of the keys; the index
    triangles are the same. *)
Lemma points_triangles_keys (vectors : list (facet (scalar:=scalar))) :
  vertices_triangles (key_facet key <$> vectors)
  = (key_point key <$> (points_triangles key vectors).1,
     (points_triangles key vectors).2).
Proof.
  unfold vertices_triangles, points_triangles. rewrite stored_loop_abs.
  by destruct (stored_loop key vectors) as [st tris].
Qed.

Lemma points_triangles_spec (vectors : list (facet (scalar:=scalar))) :
  ∃ ps ts, points_triangles key vectors = (ps, ts)
    ∧ NoDup (key_point key <$> ps)
    ∧ expand (key_point key <$> ps) ts = Some (key_facet key <$> vectors)
    ∧ (∀ x, x ∈ key_point key <$> ps ↔ x ∈ corners (key_facet key <$> vectors))
    ∧ length ps ≤ 3 * length vectors.
Proof.
  pose proof (points_triangles_keys vectors) as Hkeys.
  destruct (vertices_triangles_spec (key_facet key <$> vectors))
    as (vs & ts & E & Hnd & Hexp & Hel & Hlen).
  destruct (points_triangles key vectors) as [ps ts'] eqn:Eps.
  rewrite E in Hkeys. simpl in Hkeys. injection Hkeys as -> ->.
  exists ps, ts'. rewrite !length_fmap in Hlen. done.
Qed.
End StoredTable.

(** ** The colour table *)

Section ColorProperties.

Lemma base_element_color name color :
  ET.get (base_element name color) "displaycolor" = Some color.
Proof. reflexivity. Qed.

Lemma base_element_name name color :
  ET.get (base_element name color) "name" = Some name.
Proof. reflexivity. Qed.

Lemma color_inv_init : color_inv color_init [].
Proof.
  split; [done|]. split.
  - intros c i. simpl. rewrite lookup_empty. split; [done|]. by intros [n ?].
  - split; [|by constructor].
    intros c. simpl. rewrite lookup_empty. split; [by intros [? ?]|]. by intros ?%elem_of_nil.
Qed.

Lemma color_step_seen st p i :
  color_map st !! part_color p = Some i → color_step st p = st.
Proof. intros Hi. unfold color_step. rewrite decide_False; [done|]. by rewrite Hi. Qed.

Lemma color_step_unseen st p :
  color_map st !! part_color p = None →
  color_step st p =
    ColorState (bases st ++ [base_element (base_name (color_id st) p) (part_color p)])
               (<[part_color p := color_id st]> (color_map st))
               (S (color_id st)).
Proof. intros Hi. unfold color_step. by rewrite decide_True. Qed.

Lemma color_step_inv st seen p :
  color_inv st seen → color_inv (color_step st p) (seen ++ [p]).
Proof.
  intros (Hid & Hmap & Hdom & Htag).
  destruct (color_map st !! part_color p) as [i|] eqn:Hp.
  - rewrite (color_step_seen _ _ _ Hp). split; [done|]. split; [done|].
    split; [|done]. intros c. rewrite Hdom, fmap_app, elem_of_app. simpl.
    rewrite list_elem_of_singleton. split; [by left|]. intros [?| ->]; [done|].
    apply Hdom. by eexists.
  - rewrite (color_step_unseen _ _ Hp). split; [|split; [|split]]; simpl;
      [| | |by apply Forall_app; split; [|constructor]].
    + rewrite length_app. simpl. lia.
    + intros c i. destruct (decide (part_color p = c)) as [<-|Hne].
      * rewrite lookup_insert_eq. split.
        -- intros [= <-]. eexists. rewrite Hid. by rewrite list_lookup_middle.
        -- intros [n Hn]. f_equal.
           apply lookup_app_Some in Hn as [Hn|[Hge Hn]].
           ++ assert (color_map st !! part_color p = Some i) by (apply Hmap; eauto).
              congruence.
           ++ apply list_lookup_singleton_Some in Hn as [? _]. lia.
      * rewrite lookup_insert_ne by done. rewrite Hmap. split.
        -- intros [n Hn]. exists n. by apply lookup_app_l_Some.
        -- intros [n Hn]. exists n.
           apply lookup_app_Some in Hn as [Hn|[Hge Hn]]; [done|].
           apply list_lookup_singleton_Some in Hn as [_ Hn].
           apply (f_equal (λ e, ET.get e "displaycolor")) in Hn.
           rewrite !base_element_color in Hn. congruence.
    + intros c. rewrite fmap_app, elem_of_app. simpl. rewrite list_elem_of_singleton.
      rewrite <- Hdom. destruct (decide (part_color p = c)) as [<-|Hne].
      * rewrite lookup_insert_eq. split; [by right|]. by eexists.
      * rewrite lookup_insert_ne by done. split; [by left|]. by intros [?|?].
Qed.

Lemma color_loop_from_inv parts st seen :
  color_inv st seen → color_inv (foldl color_step st parts) (seen ++ parts).
Proof.
  revert st seen. induction parts as [|p parts IH]; intros st seen Hinv; simpl.
  - by rewrite app_nil_r.
  - rewrite (cons_middle p seen parts), (assoc_L (++)).
    by apply IH, color_step_inv.
Qed.

Lemma color_loop_inv parts : color_inv (color_loop parts) parts.
Proof. apply (color_loop_from_inv parts color_init []), color_inv_init. Qed.

(** Later registrations only append: an index, once given, stays. *)
Lemma color_step_stable st p :
  bases st `prefix_of` bases (color_step st p)
  ∧ ∀ c i, color_map st !! c = Some i → color_map (color_step st p) !! c = Some i.
Proof.
  destruct (color_map st !! part_color p) as [j|] eqn:Hp.
  - by rewrite (color_step_seen _ _ _ Hp).
  - rewrite (color_step_unseen _ _ Hp). simpl. split; [by apply prefix_app_r|].
    intros c i Hc. rewrite lookup_insert_ne; [done|]. congruence.
Qed.

Lemma color_loop_stable parts st :
  bases st `prefix_of` bases (foldl color_step st parts)
  ∧ ∀ c i, color_map st !! c = Some i →
           color_map (foldl color_step st parts) !! c = Some i.
Proof.
  revert st. induction parts as [|p parts IH]; intros st; simpl; [done|].
  destruct (color_step_stable st p) as [Hpre Hmap].
  destruct (IH (color_step st p)) as [Hpre' Hmap'].
  split; [by etrans|]. intros c i Hc. by apply Hmap', Hmap.
Qed.

(** Every part, located or not, finds its colour in the finished table. *)
Lemma color_loop_registered parts p :
  p ∈ parts →
  ∃ i, color_map (color_loop parts) !! part_color p = Some i
       ∧ i < length (bases (color_loop parts))
       ∧ ∃ n, bases (color_loop parts) !! i = Some (base_element n (part_color p)).
Proof.
  intros Hp. destruct (color_loop_inv parts) as (_ & Hmap & Hdom & _).
  destruct (proj2 (Hdom (part_color p))) as [i Hi].
  { by apply list_elem_of_fmap_2. }
  exists i. split; [done|]. apply Hmap in Hi as [n Hn].
  split; [by eapply lookup_lt_Some|]. by exists n.
Qed.

Lemma color_loop_snoc parts p :
  color_loop (parts ++ [p]) = color_step (color_loop parts) p.
Proof. unfold color_loop. by rewrite foldl_app. Qed.

(** Every entry of the table was written by the loop: a name and a colour. *)
Lemma color_loop_entries parts :
  Forall (λ b, ∃ n c, b = base_element n c) (bases (color_loop parts)).
Proof.
  induction parts as [|p parts IH] using rev_ind; [by constructor|].
  rewrite color_loop_snoc. unfold color_step. case_decide; [|done].
  simpl. apply Forall_app. split; [done|]. repeat constructor. by eexists _, _.
Qed.

(** C5.  Material registration, read off the entries the loop leaves.
    The table starts empty.  After any list of parts a colour has index [i]
    exactly when entry [i] shows that colour.  A part whose colour is in
    the table changes nothing: the index stays and the part's name is
    ignored.  A part with an unseen colour appends one entry, at the next
    index (the number of entries so far), whose name attribute is the
    part's name (Color_ and the index for a part without one) and whose
    displaycolor attribute is the colour.  Hence the first part carrying a
    colour names its entry whatever comes later, and two parts of colour
    #1A1A1A give one entry, at index 0, with the first part's name. *)
Theorem material_registration :
  (bases (color_loop []) = [] ∧ color_map (color_loop []) = ∅)
  ∧ (∀ parts c i,
       color_map (color_loop parts) !! c = Some i ↔
       ∃ b, bases (color_loop parts) !! i = Some b
            ∧ ET.get b "displaycolor" = Some c)
  ∧ (∀ parts p i,
       color_map (color_loop parts) !! part_color p = Some i →
       color_loop (parts ++ [p]) = color_loop parts)
  ∧ (∀ parts p,
       color_map (color_loop parts) !! part_color p = None →
       ∃ b, bases (color_loop (parts ++ [p])) = bases (color_loop parts) ++ [b]
            ∧ ET.tag b = tag_base
            ∧ ET.get b "name"
              = Some (default ("Color_" +:+ str (length (bases (color_loop parts))))
                              (p !! "name"))
            ∧ ET.get b "displaycolor" = Some (part_color p)
            ∧ color_map (color_loop (parts ++ [p]))
              = <[part_color p := length (bases (color_loop parts))]>
                  (color_map (color_loop parts)))
  ∧ (∀ before p after,
       part_color p ∉ part_color <$> before →
       ∃ b, color_map (color_loop (before ++ p :: after)) !! part_color p
            = Some (length (bases (color_loop before)))
            ∧ bases (color_loop (before ++ p :: after))
                !! length (bases (color_loop before)) = Some b
            ∧ ET.get b "name"
              = Some (default ("Color_" +:+ str (length (bases (color_loop before))))
                              (p !! "name"))
            ∧ ET.get b "displaycolor" = Some (part_color p))
  ∧ (∀ f1 f2 n1 n2,
       ∃ b, bases (color_loop [mk_part f1 "#1A1A1A" n1; mk_part f2 "#1A1A1A" n2]) = [b]
            ∧ ET.get b "name" = Some n1
            ∧ ET.get b "displaycolor" = Some "#1A1A1A"
            ∧ color_map (color_loop [mk_part f1 "#1A1A1A" n1; mk_part f2 "#1A1A1A" n2])
                !! "#1A1A1A" = Some 0).
Proof.
  split; [done|]. split; [|split; [|split; [|split]]].
  - intros parts c i. destruct (color_loop_inv parts) as (_ & Hmap & _).
    rewrite Hmap. split.
    + intros [n Hn]. eexists. split; [exact Hn|]. apply base_element_color.
    + intros (b & Hb & Hc).
      pose proof (color_loop_entries parts) as Hall.
      rewrite Forall_lookup in Hall. destruct (Hall i b Hb) as (n & c' & ->).
      rewrite base_element_color in Hc. injection Hc as ->. by exists n.
  - intros parts p i Hi. rewrite color_loop_snoc. by eapply color_step_seen.
  - intros parts p Hnone. destruct (color_loop_inv parts) as (Hid & _).
    rewrite color_loop_snoc, (color_step_unseen _ _ Hnone), Hid. simpl.
    eexists. split; [done|]. split; [done|]. split; [apply base_element_name|].
    split; [apply base_element_color|done].
  - intros before p after Hfresh.
    unfold color_loop. rewrite foldl_app. simpl.
    destruct (color_loop_inv before) as (Hid & Hmap & Hdom & _). fold (color_loop before).
    assert (color_map (color_loop before) !! part_color p = None) as Hnone.
    { apply eq_None_not_Some. by rewrite Hdom. }
    destruct (color_loop_stable after (color_step (color_loop before) p)) as [[k Hk] Hst].
    eexists. split; [|split; [|split; [apply base_element_name|apply base_element_color]]].
    + apply Hst. rewrite (color_step_unseen _ _ Hnone), Hid. simpl. apply lookup_insert_eq.
    + rewrite Hk. apply lookup_app_l_Some.
      rewrite (color_step_unseen _ _ Hnone), Hid. simpl.
      by rewrite list_lookup_middle.
  - intros f1 f2 n1 n2. eexists. split; [reflexivity|]. done.
Qed.
End ColorProperties.

(** ** Objects and the element tree *)

Section ObjectProperties.
Context {coord : Type} `{Countable coord} {scalar : Type}.
Variable key : scalar → coord.
Variable fmt6 : scalar → string.
Variable resolve : string → string.
Implicit Types (fs : gmap string (file (scalar:=scalar))) (p : part) (st : object_state).

Lemma traverse_Ok {A B} (f : A → result B) l ys :
  traverse f l = Ok ys ↔ Forall2 (λ x y, f x = Ok y) l ys.
Proof.
  revert ys. induction l as [|x l IH]; intros ys; simpl.
  - split; [intros [= <-]; constructor|]. by intros ->%Forall2_nil_inv_l.
  - destruct (f x) as [y|e] eqn:Hx; simpl.
    + destruct (traverse f l) as [zs|e] eqn:Hl; simpl.
      * split.
        -- intros [= <-]. constructor; [done|]. by apply IH.
        -- intros (y' & zs' & Hy & Hzs & ->)%Forall2_cons_inv_l.
           apply IH in Hzs. congruence.
      * split; [done|].
        intros (y' & zs' & Hy & Hzs & ->)%Forall2_cons_inv_l.
        apply IH in Hzs. done.
    + split; [done|]. intros (y' & zs' & Hy & _)%Forall2_cons_inv_l. congruence.
Qed.

Lemma triangle_element_spec (vs : list (vertex (coord:=coord))) t r :
  expand_triangle vs t = Some r →
  ∃ e, triangle_element t = Ok e
       ∧ index_below (length vs) e "v1"
       ∧ index_below (length vs) e "v2"
       ∧ index_below (length vs) e "v3".
Proof.
  destruct t as [|i1 [|i2 [|i3 [|]]]]; simpl; try done.
  destruct (vs !! i1) as [a|] eqn:H1; [|done].
  destruct (vs !! i2) as [b|] eqn:H2; [|done].
  destruct (vs !! i3) as [c|] eqn:H3; [|done].
  intros _. eexists. split; [reflexivity|].
  apply lookup_lt_Some in H1, H2, H3.
  split; [|split]; eexists; (split; [reflexivity|done]).
Qed.

Lemma triangle_elements_spec (vs : list (vertex (coord:=coord))) ts rs :
  expand vs ts = Some rs →
  ∃ es, traverse triangle_element ts = Ok es
        ∧ Forall (λ e, index_below (length vs) e "v1"
                       ∧ index_below (length vs) e "v2"
                       ∧ index_below (length vs) e "v3") es.
Proof.
  unfold expand. rewrite mapM_Some. intros Hrs.
  induction Hrs as [|t r ts rs Ht _ IH].
  - exists []. by split.
  - destruct IH as (es & Hes & Hall).
    destruct (triangle_element_spec vs t r Ht) as (e & He & Hin).
    exists (e :: es). simpl. rewrite He. simpl. rewrite Hes. simpl.
    split; [done|]. by constructor.
Qed.

Lemma object_step_skipped fs cm st p st' :
  located resolve fs p = false → object_step key fmt6 resolve fs cm st p = Ok st' → st' = st.
Proof.
  unfold located, object_step, getitem.
  destruct (p !! "file") as [f|]; simpl; [|done].
  intros ->. by intros [= <-].
Qed.

Lemma object_step_located fs cm st p st' :
  located resolve fs p = true → object_step key fmt6 resolve fs cm st p = Ok st' →
  ∃ obj,
    st' = ObjectState (objects st ++ [obj]) (S (object_id st))
                      (build_items st ++ [object_id st])
    ∧ ET.tag obj = "object"
    ∧ ET.get obj "id" = Some (str (object_id st))
    ∧ ET.get obj "name" = Some (object_name p)
    ∧ (∀ materials, default 0 (cm !! part_color p) < materials →
         object_in_range materials obj).
Proof.
  unfold located, object_step, getitem, object_name.
  destruct (p !! "file") as [f|]; simpl; [|done].
  intros ->. unfold stl_to_vertices_triangles.
  destruct (from_file resolve fs f) as [vectors|]; simpl; [|done].
  destruct (points_triangles_spec key vectors) as (ps & ts & -> & _ & Hexp & _).
  simpl.
  destruct (triangle_elements_spec _ ts _ Hexp) as (es & -> & Hes). simpl.
  intros [= <-]. eexists. split; [reflexivity|].
  split; [reflexivity|]. split; [reflexivity|]. split; [reflexivity|].
  intros materials Hlt.
  eexists _, _, _. split; [reflexivity|]. split; [reflexivity|]. split; [reflexivity|].
  split; [eexists; split; [reflexivity|done]|].
  simpl. rewrite length_fmap in Hes. by rewrite length_fmap.
Qed.

(** What the second loop has added once it finishes without raising. *)
Lemma object_loop_from fs cm parts st st' :
  foldM (object_step key fmt6 resolve fs cm) st parts = Ok st' →
  ∃ objs,
    objects st' = objects st ++ objs
    ∧ object_id st' = object_id st + length (filter (located resolve fs) parts)
    ∧ build_items st'
      = build_items st ++ seq (object_id st) (length (filter (located resolve fs) parts))
    ∧ Forall (λ o, ET.tag o = "object") objs
    ∧ (λ o, ET.get o "id") <$> objs
      = (λ n, Some (str n)) <$> seq (object_id st) (length (filter (located resolve fs) parts))
    ∧ (λ o, ET.get o "name") <$> objs
      = (λ q, Some (object_name q)) <$> filter (located resolve fs) parts
    ∧ Forall2 (λ o q, ∀ materials, default 0 (cm !! part_color q) < materials →
                       object_in_range materials o)
              objs (filter (located resolve fs) parts).
Proof.
  revert st. induction parts as [|p parts IH]; intros st; simpl.
  - intros [= <-]. exists []. rewrite !app_nil_r, Nat.add_0_r. simpl.
    repeat split; constructor.
  - destruct (object_step key fmt6 resolve fs cm st p) as [st1|] eqn:Hstep; simpl; [|done].
    intros Hloop. destruct (IH _ Hloop) as (objs & Hobjs & Hid & Hbuild & Htag & Hids & Hnames & Hrange).
    destruct (located resolve fs p) eqn:Hloc.
    + destruct (object_step_located _ _ _ _ _ Hloc Hstep)
        as (obj & -> & Hotag & Hoid & Honame & Horange).
      simpl in *. rewrite filter_cons_True by by rewrite Hloc.
      exists (obj :: objs). simpl.
      rewrite Hobjs, Hid, Hbuild, <- !(assoc_L (++)). simpl.
      split; [done|]. split; [lia|]. split; [done|].
      split; [by constructor|]. split; [by f_equal|].
      split; [by f_equal|]. by constructor.
    + rewrite (object_step_skipped _ _ _ _ _ Hloc Hstep) in *.
      rewrite filter_cons_False by (rewrite Hloc; intros []).
      exists objs. done.
Qed.

Lemma findall_same_tag (t : string) (es : list ET.Element) :
  Forall (λ e, ET.tag e = t) es → filter (λ c, ET.tag c = t) es = es.
Proof.
  induction 1 as [|e es He _ IH]; [done|].
  rewrite filter_cons_True by done. by rewrite IH.
Qed.

Lemma doc_basematerials_model cs os :
  doc_basematerials (model_element cs os)
  = Some (ET.extend (ET.set (ET.new tag_basematerials) "id" "1") (bases cs)).
Proof. reflexivity. Qed.

Lemma doc_objects_model cs os :
  Forall (λ o, ET.tag o = "object") (objects os) →
  doc_objects (model_element cs os) = Some (objects os).
Proof.
  intros Htag. unfold doc_objects, model_element, ET.find, ET.findall. simpl.
  rewrite filter_cons_False by done. by rewrite findall_same_tag.
Qed.

Lemma doc_items_model cs os :
  doc_items (model_element cs os) = Some (item_element <$> build_items os).
Proof.
  unfold doc_items, model_element, ET.find, ET.findall. simpl.
  f_equal. apply findall_same_tag. apply Forall_fmap. by apply Forall_true.
Qed.

(** A finished tree comes from a finished second loop. *)
Lemma build_model_Ok fs parts model :
  build_model key fmt6 resolve parts fs = Ok model →
  ∃ os, object_loop key fmt6 resolve fs (color_map (color_loop parts)) parts = Ok os
        ∧ model = model_element (color_loop parts) os.
Proof.
  unfold build_model.
  destruct (object_loop key fmt6 resolve fs (color_map (color_loop parts)) parts) as [os|]; simpl; [|done].
  intros [= <-]. by exists os.
Qed.
End ObjectProperties.

(** ** Lines of the model document *)

Section LineProperties.

Lemma split_lines_cons s : ∃ h t, split_lines s = h :: t.
Proof.
  induction s as [|c s (h & t & IH)]; simpl; [by eauto|].
  destruct (Ascii.eqb _ _); [by eauto|]. rewrite IH. by eauto.
Qed.

Lemma split_lines_first pre s :
  has_newline pre = false →
  split_lines (pre +:+ newline +:+ s) = pre :: split_lines s.
Proof.
  induction pre as [|c pre IH]; simpl; [done|].
  intros [Hc Hpre]%orb_false_iff. rewrite Hc, (IH Hpre). done.
Qed.

Lemma first_line_declaration s :
  first_line (xml_declaration +:+ newline +:+ s) = Some xml_declaration.
Proof. unfold first_line. by rewrite split_lines_first by reflexivity. Qed.

End LineProperties.

(** ** The package *)

Section PackageProperties.
Context {coord : Type} `{Countable coord} {scalar : Type}.
Variable key : scalar → coord.
Variable fmt6 : scalar → string.
Variable toprettyxml : ET.Element → option string.
Variable resolve : string → string.
Variable writable : gmap string (file (scalar:=scalar)) → string → bool.
Implicit Types (fs : gmap string (file (scalar:=scalar))) (p : part).

Lemma create_3mf_Ok parts out fs r :
  create_3mf key fmt6 toprettyxml resolve writable parts out fs = Ok r →
  ∃ model xml,
    build_model key fmt6 resolve parts fs = Ok model
    ∧ toprettyxml model = Some xml
    ∧ writable fs out = true
    ∧ r = (out, <[resolve out := package
                   (xml_declaration +:+ newline +:+ join_lines (tail (split_lines xml)))]> fs).
Proof.
  unfold create_3mf, model_document.
  destruct (build_model key fmt6 resolve parts fs) as [model|]; simpl; [|done].
  destruct (toprettyxml model) as [xml|] eqn:Hxml; simpl; [|done].
  destruct (writable fs out) eqn:Hw; [|done].
  intros [= <-]. by exists model, xml.
Qed.

(** C9.  A successful conversion returns the output path and leaves at the
    file it names an archive of exactly three entries, [Content_Types].xml,
    _rels/.rels and 3D/3dmodel.model in that order, and the first line of
    the model document is the UTF-8 XML declaration. *)
Theorem package_entries parts out fs r :
  create_3mf key fmt6 toprettyxml resolve writable parts out fs = Ok r →
  ∃ doc,
    r = (out, <[resolve out := ZipFile [("[Content_Types].xml", content_types);
                                        ("_rels/.rels", rels);
                                        ("3D/3dmodel.model", doc)]]> fs)
    ∧ first_line doc = Some xml_declaration.
Proof.
  intros (model & xml & _ & _ & _ & ->)%create_3mf_Ok.
  eexists. split; [reflexivity|]. apply first_line_declaration.
Qed.

(** The tree is finished whenever every part names a file and every file
    found is a mesh. *)
Lemma object_step_succeeds fs cm st p :
  (∃ f, p !! "file" = Some f
        ∧ (fs !! resolve f = None ∨ ∃ vectors, fs !! resolve f = Some (MeshFile vectors))) →
  ∃ st', object_step key fmt6 resolve fs cm st p = Ok st'.
Proof.
  intros (f & Hf & Hfs). unfold object_step, getitem, path_exists.
  rewrite Hf. simpl. destruct Hfs as [Hnone|[vectors Hmesh]].
  - rewrite bool_decide_eq_false_2; [by eauto|]. rewrite Hnone. by intros [? ?].
  - rewrite bool_decide_eq_true_2 by (by rewrite Hmesh).
    unfold stl_to_vertices_triangles, from_file. rewrite Hmesh. simpl.
    destruct (points_triangles_spec key vectors) as (ps & ts & -> & _ & Hexp & _).
    simpl. destruct (triangle_elements_spec _ ts _ Hexp) as (es & -> & _).
    simpl. by eauto.
Qed.

Lemma object_loop_succeeds parts fs cm st :
  Forall (λ p, ∃ f, p !! "file" = Some f
                    ∧ (fs !! resolve f = None ∨ ∃ vectors, fs !! resolve f = Some (MeshFile vectors)))
         parts →
  ∃ st', foldM (object_step key fmt6 resolve fs cm) st parts = Ok st'.
Proof.
  intros Hparts. revert st.
  induction Hparts as [|p parts Hp _ IH]; intros st; simpl; [by eauto|].
  destruct (object_step_succeeds fs cm st p Hp) as [st' ->]. simpl.
  apply IH.
Qed.

Lemma build_model_succeeds parts fs :
  Forall (λ p, ∃ f, p !! "file" = Some f
                    ∧ (fs !! resolve f = None ∨ ∃ vectors, fs !! resolve f = Some (MeshFile vectors)))
         parts →
  ∃ model, build_model key fmt6 resolve parts fs = Ok model.
Proof.
  intros Hparts. unfold build_model, object_loop.
  destruct (object_loop_succeeds parts fs (color_map (color_loop parts)) object_init Hparts)
    as [os ->].
  simpl. by eauto.
Qed.

(** What every finished tree looks like. *)
Lemma build_model_shape parts fs model :
  build_model key fmt6 resolve parts fs = Ok model →
  ∃ objs,
    doc_basematerials model
    = Some (ET.extend (ET.set (ET.new tag_basematerials) "id" "1")
                      (bases (color_loop parts)))
    ∧ doc_objects model = Some objs
    ∧ doc_items model
      = Some (item_element <$> seq 2 (length (filter (located resolve fs) parts)))
    ∧ (λ o, ET.get o "id") <$> objs
      = (λ n, Some (str n)) <$> seq 2 (length (filter (located resolve fs) parts))
    ∧ (λ o, ET.get o "name") <$> objs
      = (λ q, Some (object_name q)) <$> filter (located resolve fs) parts
    ∧ Forall2 (λ o q, ∀ materials,
                 default 0 (color_map (color_loop parts) !! part_color q) < materials →
                 object_in_range materials o)
              objs (filter (located resolve fs) parts).
Proof.
  intros (os & Hloop & ->)%build_model_Ok.
  destruct (object_loop_from _ _ _ _ _ _ _ _ Hloop)
    as (objs & Hobjs & _ & Hbuild & Htag & Hids & Hnames & Hrange).
  simpl in Hobjs, Hbuild, Hids. exists objs.
  split; [apply doc_basematerials_model|].
  split; [rewrite <- Hobjs in Htag; by rewrite doc_objects_model, Hobjs|].
  split; [by rewrite doc_items_model, Hbuild|]. done.
Qed.

(** C3.  The document is finished whenever every part names a file and
    every file found is a mesh.  In a finished document the object
    identities are 2, 3, ... in input order, one per part that survived the
    existence check (the names of the objects are those of the surviving
    parts, in order), and the build items reference exactly those
    identities in the same order. *)
Theorem object_identities parts fs :
  (Forall (λ p, ∃ f, p !! "file" = Some f
                     ∧ (fs !! resolve f = None ∨ ∃ vectors, fs !! resolve f = Some (MeshFile vectors)))
          parts →
   ∃ model, build_model key fmt6 resolve parts fs = Ok model)
  ∧ ∀ model,
      build_model key fmt6 resolve parts fs = Ok model →
      ∃ objs items,
        doc_objects model = Some objs
        ∧ doc_items model = Some items
        ∧ (λ o, ET.get o "id") <$> objs
          = (λ n, Some (str n)) <$> seq 2 (length (filter (located resolve fs) parts))
        ∧ (λ o, ET.get o "name") <$> objs
          = (λ q, Some (object_name q)) <$> filter (located resolve fs) parts
        ∧ (λ it, ET.get it "objectid") <$> items = (λ o, ET.get o "id") <$> objs.
Proof.
  split; [apply build_model_succeeds|].
  intros model (objs & _ & Hobjs & Hitems & Hids & Hnames & _)%build_model_shape.
  exists objs, (item_element <$> seq 2 (length (filter (located resolve fs) parts))).
  split; [done|]. split; [done|]. split; [done|]. split; [done|].
  rewrite Hids, <- list_fmap_compose. done.
Qed.

(** C6.  In a finished document every triangle of every object has three
    indices below the number of entries of that same object's vertices
    block, and every object's pindex is below the number of base entries of
    the basematerials block. *)
Theorem indices_in_range parts fs model :
  build_model key fmt6 resolve parts fs = Ok model →
  ∃ basematerials objs,
    doc_basematerials model = Some basematerials
    ∧ doc_objects model = Some objs
    ∧ Forall (object_in_range (length (ET.findall basematerials tag_base))) objs.
Proof.
  intros (objs & Hbm & Hobjs & _ & _ & _ & Hrange)%build_model_shape.
  eexists _, objs. split; [exact Hbm|]. split; [done|].
  assert (ET.findall
            (ET.extend (ET.set (ET.new tag_basematerials) "id" "1")
                       (bases (color_loop parts))) tag_base
          = bases (color_loop parts)) as ->.
  { unfold ET.findall. simpl. apply findall_same_tag, (color_loop_inv parts). }
  eapply Forall2_Forall_l; [exact Hrange|].
  apply Forall_forall. intros q Hq%list_elem_of_filter o Ho. apply Ho.
  destruct (color_loop_registered parts q) as (i & -> & Hi & _); [by apply Hq|].
  done.
Qed.

(** C2, amended.  A part whose source is not found contributes no object and
    no build item: objects and items are those of the located parts.  Its
    colour is registered all the same, since the colour table is filled in
    a first pass over every part: each part of the list, located or not,
    has its colour in the table and on a base entry of the document. *)
Theorem skipped_part_contribution parts fs model :
  build_model key fmt6 resolve parts fs = Ok model →
  ∃ basematerials objs items,
    doc_basematerials model = Some basematerials
    ∧ doc_objects model = Some objs
    ∧ doc_items model = Some items
    ∧ length items = length (filter (located resolve fs) parts)
    ∧ (λ o, ET.get o "name") <$> objs
      = (λ q, Some (object_name q)) <$> filter (located resolve fs) parts
    ∧ ∀ p, p ∈ parts →
        is_Some (color_map (color_loop parts) !! part_color p)
        ∧ ∃ b, b ∈ ET.children basematerials
               ∧ ET.get b "displaycolor" = Some (part_color p).
Proof.
  intros (objs & Hbm & Hobjs & Hitems & _ & Hnames & _)%build_model_shape.
  eexists _, objs, _. split; [exact Hbm|]. split; [done|]. split; [exact Hitems|].
  split; [by rewrite length_fmap, length_seq|]. split; [done|].
  intros p Hp. destruct (color_loop_registered parts p Hp) as (i & Hi & _ & n & Hn).
  split; [by eexists|]. exists (base_element n (part_color p)).
  split; [|done]. simpl. by eapply list_elem_of_lookup_2.
Qed.

Lemma object_step_ext fs1 fs2 cm st p :
  (∀ f, p !! "file" = Some f → fs1 !! resolve f = fs2 !! resolve f) →
  object_step key fmt6 resolve fs1 cm st p = object_step key fmt6 resolve fs2 cm st p.
Proof.
  intros Hsame. unfold object_step, getitem, path_exists,
    stl_to_vertices_triangles, from_file.
  destruct (p !! "file") as [f|]; simpl; [|done].
  by rewrite (Hsame f).
Qed.

Lemma object_loop_ext fs1 fs2 cm parts st :
  same_sources resolve parts fs1 fs2 →
  foldM (object_step key fmt6 resolve fs1 cm) st parts = foldM (object_step key fmt6 resolve fs2 cm) st parts.
Proof.
  revert st. induction parts as [|p parts IH]; intros st Hsame; simpl; [done|].
  rewrite (object_step_ext fs1 fs2 cm st p).
  - destruct (object_step key fmt6 resolve fs2 cm st p) as [st'|]; simpl; [|done].
    apply IH. intros q f Hq. apply Hsame. by right.
  - intros f. apply Hsame. by left.
Qed.

Lemma build_model_ext parts fs1 fs2 :
  same_sources resolve parts fs1 fs2 →
  build_model key fmt6 resolve parts fs1 = build_model key fmt6 resolve parts fs2.
Proof.
  intros Hsame. unfold build_model, object_loop.
  by rewrite (object_loop_ext fs1 fs2 _ parts _ Hsame).
Qed.

(** C7.  The conversion is deterministic in its inputs: in two file systems
    that hold the same thing at the files the parts name, and where the
    output path can be written alike, the same part list gives the same
    document (or the same exception) and leaves the same package (or raises
    the same exception); and a second run after a successful one, the output
    naming none of the files a part names and being writable again,
    succeeds with the same result. *)
Theorem conversion_deterministic parts out fs1 fs2 :
  same_sources resolve parts fs1 fs2 →
  writable fs1 out = writable fs2 out →
  build_model key fmt6 resolve parts fs1 = build_model key fmt6 resolve parts fs2
  ∧ written resolve (create_3mf key fmt6 toprettyxml resolve writable parts out fs1)
    = written resolve (create_3mf key fmt6 toprettyxml resolve writable parts out fs2)
  ∧ (∀ fs1',
       (∀ p f, p ∈ parts → p !! "file" = Some f → resolve f ≠ resolve out) →
       create_3mf key fmt6 toprettyxml resolve writable parts out fs1 = Ok (out, fs1') →
       writable fs1' out = true →
       create_3mf key fmt6 toprettyxml resolve writable parts out fs1' = Ok (out, fs1')).
Proof.
  intros Hsame Hw. pose proof (build_model_ext parts fs1 fs2 Hsame) as Hmodel.
  split; [done|]. split.
  - unfold written, create_3mf. rewrite Hmodel, Hw.
    destruct (build_model key fmt6 resolve parts fs2) as [model|]; simpl; [|done].
    destruct (model_document toprettyxml model) as [doc|]; simpl; [|done].
    destruct (writable fs2 out); simpl; [|done].
    by rewrite !lookup_insert_eq.
  - intros fs1' Hout Hrun Hw'.
    assert (same_sources resolve parts fs1 fs1') as Hsame'.
    { apply create_3mf_Ok in Hrun as (model & xml & _ & _ & _ & [= ->]).
      intros p f Hp Hf. rewrite lookup_insert_ne; [done|].
      intros Heq. by apply (Hout p f). }
    revert Hrun. unfold create_3mf.
    rewrite (build_model_ext parts fs1 fs1' Hsame'), Hw'.
    destruct (build_model key fmt6 resolve parts fs1') as [model|]; simpl; [|done].
    destruct (model_document toprettyxml model) as [doc|]; simpl; [|done].
    destruct (writable fs1 out); [|done].
    intros [= <-]. by rewrite insert_insert_eq.
Qed.

Lemma located_mk_part fs f color name :
  located resolve fs (mk_part f color name) = path_exists resolve fs f.
Proof. reflexivity. Qed.

Lemma source_exists_mk_part fs f color name :
  source_exists resolve fs (mk_part f color name) = Ok (path_exists resolve fs f).
Proof. reflexivity. Qed.

(** C1, amended.  [create_3mf] does not refuse empty input: for a list with
    no part, or whose sources are all absent, it builds a document with no
    object and no build item; once that is serialised it writes the package
    when the output can be opened for writing and raises the operating
    system's error when it cannot, and it raises the serialiser's error
    when serialisation fails.  The refusal is in the command-line entry
    point, which exits with status 1 when none of its sources exists and
    otherwise does what [create_3mf] does on the non-empty list of the parts
    that exist. *)
Theorem empty_input_handling :
  (∀ parts out fs,
     Forall (λ p, is_Some (p !! "file") ∧ located resolve fs p = false) parts →
     ∃ model,
       build_model key fmt6 resolve parts fs = Ok model
       ∧ doc_objects model = Some []
       ∧ doc_items model = Some []
       ∧ (∀ xml, toprettyxml model = Some xml →
            create_3mf key fmt6 toprettyxml resolve writable parts out fs
            = if writable fs out
              then Ok (out,
                       <[resolve out :=
                           package (xml_declaration +:+ newline +:+
                                    join_lines (tail (split_lines xml)))]> fs)
              else Raise (OSError out))
       ∧ (toprettyxml model = None →
            create_3mf key fmt6 toprettyxml resolve writable parts out fs
            = Raise XmlError))
  ∧ (∀ fs, Forall (λ p, located resolve fs p = false) main_parts →
       main key fmt6 toprettyxml resolve writable fs = Raise (SystemExit 1))
  ∧ (∀ fs, filter (located resolve fs) main_parts ≠ [] →
       main key fmt6 toprettyxml resolve writable fs
       = '(_, fs') ← create_3mf key fmt6 toprettyxml resolve writable
                        (filter (located resolve fs) main_parts)
                        default_output_file fs;
         Ok fs').
Proof.
  split; [|split].
  - intros parts out fs Hparts.
    assert (filter (located resolve fs) parts = []) as Hnone.
    { induction Hparts as [|p parts [_ Hp] _ IH]; [done|].
      rewrite filter_cons_False by (rewrite Hp; intros []). done. }
    destruct (build_model_succeeds parts fs) as [model Hmodel].
    { eapply Forall_impl; [exact Hparts|]. intros p [[f Hf] Hloc].
      exists f. split; [done|]. left. unfold located, path_exists in Hloc.
      rewrite Hf in Hloc. apply bool_decide_eq_false in Hloc.
      by apply eq_None_not_Some. }
    exists model. split; [done|].
    destruct (build_model_shape parts fs model Hmodel)
      as (objs & _ & Hobjs & Hitems & Hids & _).
    rewrite Hnone in Hitems, Hids. simpl in Hitems, Hids.
    apply fmap_nil_inv in Hids as ->.
    split; [done|]. split; [done|].
    unfold create_3mf, model_document. rewrite Hmodel. simpl.
    split.
    + intros xml Hxml. by rewrite Hxml.
    + intros Hxml. by rewrite Hxml.
  - intros fs Hnone. unfold main, main_parts in *.
    repeat match goal with
           | H : Forall _ (_ :: _) |- _ => apply Forall_cons in H as [? H]
           end.
    rewrite located_mk_part in *. cbn [filterM].
    rewrite !source_exists_mk_part.
    repeat match goal with H : path_exists _ _ _ = false |- _ => rewrite H end.
    done.
  - intros fs. unfold main, main_parts. cbn [filterM].
    rewrite !source_exists_mk_part.
    rewrite !filter_cons, !located_mk_part, filter_nil.
    destruct (path_exists resolve fs "sign_plate.stl"),
      (path_exists resolve fs "sign_elements.stl"),
      (path_exists resolve fs "stand.stl"), (path_exists resolve fs "frame.stl");
      simpl; done.
Qed.
End PackageProperties.

(** * Worked instances *)

Example square_dedup :
  vertices_triangles Sample.square
  = ([Sample.pt 0 0 0; Sample.pt 1 0 0; Sample.pt 0 1 0; Sample.pt 1 1 0],
     [[0; 1; 2]; [1; 3; 2]]).
Proof. reflexivity. Qed.

Example three_parts_identities :
  ((λ o, ET.get o "id") <$> default [] (doc_objects Sample.three_model))
  = [Some "2"; Some "3"]
  ∧ ((λ o, ET.get o "name") <$> default [] (doc_objects Sample.three_model))
    = [Some "Plate"; Some "Stand"]
  ∧ ((λ it, ET.get it "objectid") <$> default [] (doc_items Sample.three_model))
    = [Some "2"; Some "3"].
Proof. repeat split; reflexivity. Qed.

Example ghost_only_document :
  ∃ model basematerials,
    build_model Sample.key Sample.fmt6 Sample.resolve Sample.ghost_only Sample.disk = Ok model
    ∧ doc_objects model = Some []
    ∧ doc_basematerials model = Some basematerials
    ∧ ET.children basematerials = [base_element "Ghost" "#FF0000"].
Proof. eexists _, _. repeat split; vm_compute; reflexivity. Qed.

Example no_part_package :
  written Sample.resolve (create_3mf Sample.key Sample.fmt6 Sample.toprettyxml Sample.resolve Sample.writable [] "out.3mf" ∅)
  = Ok (Some (package (xml_declaration +:+ newline +:+ "<model/>" +:+ newline))).
Proof. vm_compute. reflexivity. Qed.



Lemma material_registration_witness :
  (part_color (mk_part "c.stl" "#1A1A1A" "Stand")
     ∉ (part_color <$> [mk_part "b.stl" "#FF0000" "Ghost"]))
  ∧ ∃ b,
      color_map (color_loop ([mk_part "b.stl" "#FF0000" "Ghost"]
                             ++ mk_part "c.stl" "#1A1A1A" "Stand"
                             :: [mk_part "a.stl" "#1A1A1A" "Plate"]))
        !! part_color (mk_part "c.stl" "#1A1A1A" "Stand")
      = Some (length (bases (color_loop [mk_part "b.stl" "#FF0000" "Ghost"])))
      ∧ bases (color_loop ([mk_part "b.stl" "#FF0000" "Ghost"]
                           ++ mk_part "c.stl" "#1A1A1A" "Stand"
                           :: [mk_part "a.stl" "#1A1A1A" "Plate"]))
          !! length (bases (color_loop [mk_part "b.stl" "#FF0000" "Ghost"])) = Some b
      ∧ ET.get b "name"
        = Some (default ("Color_"
                         +:+ str (length (bases (color_loop
                                                   [mk_part "b.stl" "#FF0000" "Ghost"]))))
                        (mk_part "c.stl" "#1A1A1A" "Stand" !! "name"))
      ∧ ET.get b "displaycolor" = Some (part_color (mk_part "c.stl" "#1A1A1A" "Stand")).
Proof.
  assert (part_color (mk_part "c.stl" "#1A1A1A" "Stand")
            ∉ (part_color <$> [mk_part "b.stl" "#FF0000" "Ghost"])) as Hfresh.
  { intros Hin. apply list_elem_of_singleton in Hin. vm_compute in Hin. discriminate. }
  split; [exact Hfresh|].
  exact (proj1 (proj2 (proj2 (proj2 (proj2 material_registration))))
           _ _ _ Hfresh).
Defined.

Lemma object_identities_witness :
  build_model Sample.key Sample.fmt6 Sample.resolve Sample.three_parts Sample.disk = Ok Sample.three_model
  ∧ ∃ objs items,
      doc_objects Sample.three_model = Some objs
      ∧ doc_items Sample.three_model = Some items
      ∧ (λ o, ET.get o "id") <$> objs
        = (λ n, Some (str n))
            <$> seq 2 (length (filter (located Sample.resolve Sample.disk) Sample.three_parts))
      ∧ (λ o, ET.get o "name") <$> objs
        = (λ q, Some (object_name q)) <$> filter (located Sample.resolve Sample.disk) Sample.three_parts
      ∧ (λ it, ET.get it "objectid") <$> items = (λ o, ET.get o "id") <$> objs.
Proof.
  split; [vm_compute; reflexivity|].
  apply (proj2 (object_identities Sample.key Sample.fmt6 Sample.resolve Sample.three_parts Sample.disk)).
  vm_compute. reflexivity.
Defined.

Lemma indices_in_range_witness :
  build_model Sample.key Sample.fmt6 Sample.resolve Sample.three_parts Sample.disk = Ok Sample.three_model
  ∧ ∃ basematerials objs,
      doc_basematerials Sample.three_model = Some basematerials
      ∧ doc_objects Sample.three_model = Some objs
      ∧ Forall (object_in_range (length (ET.findall basematerials tag_base))) objs.
Proof.
  split; [vm_compute; reflexivity|].
  apply (indices_in_range Sample.key Sample.fmt6 Sample.resolve Sample.three_parts Sample.disk).
  vm_compute. reflexivity.
Defined.

Lemma skipped_part_contribution_witness :
  build_model Sample.key Sample.fmt6 Sample.resolve Sample.three_parts Sample.disk = Ok Sample.three_model
  ∧ ∃ basematerials objs items,
      doc_basematerials Sample.three_model = Some basematerials
      ∧ doc_objects Sample.three_model = Some objs
      ∧ doc_items Sample.three_model = Some items
      ∧ length items = length (filter (located Sample.resolve Sample.disk) Sample.three_parts)
      ∧ (λ o, ET.get o "name") <$> objs
        = (λ q, Some (object_name q)) <$> filter (located Sample.resolve Sample.disk) Sample.three_parts
      ∧ ∀ p, p ∈ Sample.three_parts →
          is_Some (color_map (color_loop Sample.three_parts) !! part_color p)
          ∧ ∃ b, b ∈ ET.children basematerials
                 ∧ ET.get b "displaycolor" = Some (part_color p).
Proof.
  split; [vm_compute; reflexivity|].
  apply (skipped_part_contribution Sample.key Sample.fmt6 Sample.resolve Sample.three_parts Sample.disk).
  vm_compute. reflexivity.
Defined.

Lemma package_entries_witness :
  ∃ r,
    create_3mf Sample.key Sample.fmt6 Sample.toprettyxml Sample.resolve Sample.writable Sample.three_parts "out.3mf" Sample.disk
    = Ok r
    ∧ ∃ doc,
        r = ("out.3mf",
             <[Sample.resolve "out.3mf" :=
                 ZipFile [("[Content_Types].xml", content_types);
                          ("_rels/.rels", rels);
                          ("3D/3dmodel.model", doc)]]> Sample.disk)
        ∧ first_line doc = Some xml_declaration.
Proof.
  eexists. split; [vm_compute; reflexivity|].
  apply (package_entries Sample.key Sample.fmt6 Sample.toprettyxml Sample.resolve Sample.writable Sample.three_parts
           "out.3mf" Sample.disk).
  vm_compute. reflexivity.
Defined.

Lemma conversion_deterministic_witness :
  same_sources Sample.resolve Sample.three_parts Sample.disk Sample.disk_with_notes
  ∧ Sample.writable Sample.disk "./out.3mf"
    = Sample.writable Sample.disk_with_notes "./out.3mf"
  ∧ (∀ p f, p ∈ Sample.three_parts → p !! "file" = Some f →
            Sample.resolve f ≠ Sample.resolve "./out.3mf")
  ∧ build_model Sample.key Sample.fmt6 Sample.resolve Sample.three_parts Sample.disk
    = build_model Sample.key Sample.fmt6 Sample.resolve Sample.three_parts
        Sample.disk_with_notes
  ∧ written Sample.resolve
      (create_3mf Sample.key Sample.fmt6 Sample.toprettyxml Sample.resolve
         Sample.writable Sample.three_parts "./out.3mf" Sample.disk)
    = written Sample.resolve
        (create_3mf Sample.key Sample.fmt6 Sample.toprettyxml Sample.resolve
           Sample.writable Sample.three_parts "./out.3mf" Sample.disk_with_notes)
  ∧ create_3mf Sample.key Sample.fmt6 Sample.toprettyxml Sample.resolve
      Sample.writable Sample.three_parts "./out.3mf" Sample.disk
    = Ok ("./out.3mf", Sample.disk_after)
  ∧ create_3mf Sample.key Sample.fmt6 Sample.toprettyxml Sample.resolve
      Sample.writable Sample.three_parts "./out.3mf" Sample.disk_after
    = Ok ("./out.3mf", Sample.disk_after).
Proof.
  assert (same_sources Sample.resolve Sample.three_parts Sample.disk
            Sample.disk_with_notes) as Hsame.
  { intros p f Hp Hf. unfold Sample.three_parts in Hp.
    repeat (apply elem_of_cons in Hp as [->|Hp]);
      [| | |by apply elem_of_nil in Hp];
      vm_compute in Hf; injection Hf as <-; vm_compute; reflexivity. }
  assert (∀ p f, p ∈ Sample.three_parts → p !! "file" = Some f →
                 Sample.resolve f ≠ Sample.resolve "./out.3mf") as Hout.
  { intros p f Hp Hf. unfold Sample.three_parts in Hp.
    repeat (apply elem_of_cons in Hp as [->|Hp]);
      [| | |by apply elem_of_nil in Hp];
      vm_compute in Hf; injection Hf as <-; vm_compute; discriminate. }
  assert (create_3mf Sample.key Sample.fmt6 Sample.toprettyxml Sample.resolve
            Sample.writable Sample.three_parts "./out.3mf" Sample.disk
          = Ok ("./out.3mf", Sample.disk_after)) as Hrun
    by (vm_compute; reflexivity).
  split; [exact Hsame|]. split; [reflexivity|]. split; [exact Hout|].
  pose proof (conversion_deterministic Sample.key Sample.fmt6 Sample.toprettyxml
                Sample.resolve Sample.writable Sample.three_parts "./out.3mf"
                Sample.disk Sample.disk_with_notes Hsame eq_refl)
    as (Hmodel & Hwritten & Hagain).
  split; [exact Hmodel|]. split; [exact Hwritten|]. split; [exact Hrun|].
  exact (Hagain Sample.disk_after Hout Hrun eq_refl).
Defined.

Lemma empty_input_handling_witness :
  Forall (λ p, is_Some (p !! "file") ∧ located Sample.resolve Sample.disk p = false)
    Sample.ghost_only
  ∧ Forall (λ p, located Sample.resolve
                   (∅ : gmap string (file (scalar := Sample.scalar))) p = false)
      main_parts
  ∧ (∃ model,
       build_model Sample.key Sample.fmt6 Sample.resolve Sample.ghost_only Sample.disk
       = Ok model
       ∧ doc_objects model = Some []
       ∧ doc_items model = Some []
       ∧ create_3mf Sample.key Sample.fmt6 Sample.toprettyxml Sample.resolve
           Sample.writable Sample.ghost_only "nodir/out.3mf" Sample.disk
         = Raise (OSError "nodir/out.3mf"))
  ∧ main Sample.key Sample.fmt6 Sample.toprettyxml Sample.resolve Sample.writable ∅
    = Raise (SystemExit 1).
Proof.
  assert (Forall (λ p, is_Some (p !! "file")
                       ∧ located Sample.resolve Sample.disk p = false)
            Sample.ghost_only) as Hghost.
  { repeat constructor. by eexists. }
  assert (Forall (λ p, located Sample.resolve
                         (∅ : gmap string (file (scalar := Sample.scalar))) p = false)
            main_parts) as Hmain.
  { repeat constructor. }
  split; [exact Hghost|]. split; [exact Hmain|].
  pose proof (empty_input_handling Sample.key Sample.fmt6 Sample.toprettyxml
                Sample.resolve Sample.writable) as (Hconv & Hexit & _).
  split.
  - destruct (Hconv Sample.ghost_only "nodir/out.3mf" Sample.disk Hghost)
      as (model & Hmodel & Hobjs & Hitems & Hwrite & _).
    exists model. split; [done|]. split; [done|]. split; [done|].
    exact (Hwrite _ eq_refl).
  - exact (Hexit ∅ Hmain).
Defined.

(** * Where the code departs from the specification *)

Lemma empty_input_not_refused :
  ¬ empty_input_refused Sample.key Sample.fmt6 Sample.toprettyxml Sample.resolve Sample.writable [] "out.3mf" ∅
  ∧ ¬ empty_input_refused Sample.key Sample.fmt6 Sample.toprettyxml Sample.resolve Sample.writable
        Sample.ghost_only "out.3mf" Sample.disk.
Proof.
  split; intros Hrefused.
  - destruct Hrefused as [e He]; [constructor|]. vm_compute in He. discriminate.
  - destruct Hrefused as [e He]; [repeat constructor|]. vm_compute in He. discriminate.
Qed.

Lemma skipped_color_registered :
  ¬ skipped_colors_absent Sample.key Sample.fmt6 Sample.resolve Sample.ghost_only Sample.disk.
Proof.
  intros Habsent.
  destruct (Habsent
              (model_element (color_loop Sample.ghost_only) object_init)
              (ET.extend (ET.set (ET.new tag_basematerials) "id" "1")
                         (bases (color_loop Sample.ghost_only)))
              "#FF0000") as [Hmap _].
  - vm_compute. reflexivity.
  - vm_compute. reflexivity.
  - apply list_elem_of_singleton. reflexivity.
  - intros p Hp _. apply list_elem_of_singleton in Hp as ->. reflexivity.
  - vm_compute in Hmap. discriminate.
Qed.

(** * Further properties of the code *)

Section FirstSeen.
Context {A : Type} `{EqDecision A}.
Implicit Types (l : list A) (x : A).

Lemma elem_of_first_seen l x : x ∈ first_seen l ↔ x ∈ l.
Proof.
  induction l as [|y l IH]; simpl; [done|].
  rewrite !elem_of_cons, list_elem_of_filter, IH.
  destruct (decide (x = y)); tauto.
Qed.

Lemma first_seen_snoc l x :
  first_seen (l ++ [x]) = if decide (x ∈ l) then first_seen l else first_seen l ++ [x].
Proof.
  induction l as [|y l IH]; simpl.
  - done.
  - rewrite IH. destruct (decide (x = y)) as [->|Hne].
    + rewrite (decide_True (P := y ∈ y :: l)) by by left.
      destruct (decide (y ∈ l)); [done|].
      rewrite filter_app, filter_cons_False, filter_nil, app_nil_r; [done|].
      by intros ?.
    + destruct (decide (x ∈ l)) as [Hin|Hnin].
      * rewrite decide_True; [done|]. by right.
      * rewrite decide_False.
        -- by rewrite filter_app, filter_cons_True, filter_nil by done.
        -- intros [?|?]%elem_of_cons; done.
Qed.

Lemma NoDup_first_seen l : NoDup (first_seen l).
Proof.
  induction l as [|y l IH]; simpl; constructor.
  - rewrite list_elem_of_filter. tauto.
  - by apply NoDup_filter.
Qed.
End FirstSeen.

Section DedupOrder.
Context {coord : Type} `{Countable coord}.
Implicit Types (st : dedup_state (coord:=coord)) (v : vertex (coord:=coord)).




End DedupOrder.

Section DedupIndices.
Context {coord : Type} `{Countable coord}.
Implicit Types (st : dedup_state (coord:=coord)) (v : vertex (coord:=coord)).





End DedupIndices.

Section ColorOrder.

Lemma color_step_colors st seen p :
  color_inv st seen →
  displaycolors (bases st) = Some <$> first_seen (part_color <$> seen) →
  displaycolors (bases (color_step st p))
  = Some <$> first_seen (part_color <$> (seen ++ [p])).
Proof.
  intros (_ & _ & Hdom & _) Hcols. rewrite fmap_app. simpl. rewrite first_seen_snoc.
  destruct (color_map st !! part_color p) as [i|] eqn:Hp.
  - rewrite (color_step_seen _ _ _ Hp). rewrite decide_True; [done|].
    apply Hdom. by eexists.
  - rewrite (color_step_unseen _ _ Hp). simpl. rewrite decide_False.
    + unfold displaycolors in *. by rewrite !fmap_app, Hcols.
    + intros Hin. apply Hdom in Hin as [i Hi]. congruence.
Qed.

Lemma color_loop_from_colors parts st seen :
  color_inv st seen →
  displaycolors (bases st) = Some <$> first_seen (part_color <$> seen) →
  displaycolors (bases (foldl color_step st parts))
  = Some <$> first_seen (part_color <$> (seen ++ parts)).
Proof.
  revert st seen. induction parts as [|p parts IH]; intros st seen Hinv Hcols; simpl.
  - by rewrite app_nil_r.
  - rewrite (cons_middle p seen parts), (assoc_L (++)).
    apply IH; [by apply color_step_inv|by apply color_step_colors].
Qed.

(** X4.  The base entries show the colours of the parts in first-seen order,
    one entry per distinct colour and nothing else. *)
Theorem material_order parts :
  displaycolors (bases (color_loop parts)) = Some <$> first_seen (part_color <$> parts)
  ∧ length (bases (color_loop parts))
    = size (list_to_set (C:=gset string) (part_color <$> parts)).
Proof.
  assert (displaycolors (bases (color_loop parts))
          = Some <$> first_seen (part_color <$> parts)) as Hcols.
  { apply (color_loop_from_colors parts color_init []); [apply color_inv_init|done]. }
  split; [done|].
  apply (f_equal length) in Hcols. unfold displaycolors in Hcols.
  rewrite !length_fmap in Hcols. rewrite Hcols.
  rewrite <- (size_list_to_set (C:=gset string)) by apply NoDup_first_seen.
  f_equal. apply set_eq. intros c. rewrite !elem_of_list_to_set.
  apply elem_of_first_seen.
Qed.

(** X5.  Parts appended to the list never change the colour table built for
    the earlier ones: the entries of the shorter list are a prefix of those
    of the longer list, and every index already given stays. *)
Theorem color_append_stable parts more :
  bases (color_loop parts) `prefix_of` bases (color_loop (parts ++ more))
  ∧ ∀ c i, color_map (color_loop parts) !! c = Some i →
           color_map (color_loop (parts ++ more)) !! c = Some i.
Proof. unfold color_loop. rewrite foldl_app. apply color_loop_stable. Qed.
End ColorOrder.

Section StoredOrder.
Context {coord : Type} `{Countable coord} {scalar : Type}.
Variable key : scalar → coord.
Implicit Types (st : stored_state (coord:=coord) (scalar:=scalar))
  (v : point (scalar:=scalar)).

Lemma stored_inv_init : stored_inv key stored_init [].
Proof.
  split; [apply dedup_inv_init|]. split.
  - intros k. simpl. rewrite lookup_empty. split; [by intros [? ?]|].
    by intros ?%elem_of_nil.
  - intros i v'. simpl. by rewrite lookup_nil.
Qed.

Lemma point_step_inv st tri v seen :
  stored_inv key st seen → stored_inv key (point_step key (st, tri) v).1 (seen ++ [v]).
Proof.
  intros (Hinv & Hdom & Hfirst). split; [|split].
  - destruct (vertex_step_spec (stored_abs key st) tri (key_point key v) Hinv)
      as (st' & i & E & Hinv' & _).
    rewrite point_step_abs in E. by injection E as <- _.
  - intros k. rewrite fmap_app, elem_of_app. simpl. rewrite list_elem_of_singleton.
    rewrite <- Hdom. unfold point_step. simpl.
    destruct (decide (stored_map st !! key_point key v = None)) as [Hnew|Hold]; simpl.
    + destruct (decide (key_point key v = k)) as [<-|Hne].
      * rewrite lookup_insert_eq. split; [by right|]. by eexists.
      * rewrite lookup_insert_ne by done. split; [by left|]. by intros [?|?].
    + split; [by left|]. intros [?| ->]; [done|].
      by destruct (stored_map st !! key_point key v); [eexists|].
  - intros i v'. unfold point_step. simpl.
    destruct (decide (stored_map st !! key_point key v = None)) as [Hnew|Hold]; simpl.
    + intros [Hi|[_ Hi]]%lookup_app_Some.
      * destruct (Hfirst i v' Hi) as (n & Hn & Hbefore).
        exists n. split; [by apply lookup_app_l_Some|].
        intros m r Hm Hr. apply (Hbefore m r Hm).
        apply lookup_lt_Some in Hn. by rewrite lookup_app_l in Hr by lia.
      * apply list_lookup_singleton_Some in Hi as [_ <-].
        exists (length seen). split; [by rewrite list_lookup_middle|].
        intros m r Hm Hr Hkey. rewrite lookup_app_l in Hr by done.
        assert (is_Some (stored_map st !! key_point key v)) as [? ?]; [|congruence].
        apply Hdom. rewrite <- Hkey. apply list_elem_of_fmap_2.
        by eapply list_elem_of_lookup_2.
    + intros Hi. destruct (Hfirst i v' Hi) as (n & Hn & Hbefore).
      exists n. split; [by apply lookup_app_l_Some|].
      intros m r Hm Hr. apply (Hbefore m r Hm).
      apply lookup_lt_Some in Hn. by rewrite lookup_app_l in Hr by lia.
Qed.

Lemma facet_step_inv st tris a b c seen :
  stored_inv key st seen →
  stored_inv key (facet_step key (st, tris) (a, b, c)).1 (seen ++ [a; b; c]).
Proof.
  intros Hinv. unfold facet_step. cbn [foldl].
  pose proof (point_step_inv st [] a seen Hinv) as H1.
  destruct (point_step key (st, []) a) as [st1 t1].
  pose proof (point_step_inv st1 t1 b _ H1) as H2.
  destruct (point_step key (st1, t1) b) as [st2 t2].
  pose proof (point_step_inv st2 t2 c _ H2) as H3.
  destruct (point_step key (st2, t2) c) as [st3 t3].
  simpl in *. by rewrite <- !(assoc_L (++)) in H3.
Qed.

Lemma stored_loop_inv (vectors : list (facet (scalar:=scalar))) :
  stored_inv key (stored_loop key vectors).1 (facet_corners vectors).
Proof.
  unfold stored_loop.
  induction vectors as [|[[a b] c] vectors IH] using rev_ind.
  - apply stored_inv_init.
  - rewrite foldl_snoc.
    destruct (foldl (facet_step key) (stored_init, []) vectors) as [st tris].
    unfold facet_corners. rewrite bind_app. simpl.
    by apply (facet_step_inv st tris a b c).
Qed.

(** Each index of an index triangle names the stored tuple of the first
    corner of the mesh with the key of the corner it stands for. *)
Lemma points_triangles_lookup (vectors : list (facet (scalar:=scalar))) j a b c :
  vectors !! j = Some (a, b, c) →
  ∃ i1 i2 i3 a' b' c',
    (points_triangles key vectors).2 !! j = Some [i1; i2; i3]
    ∧ (points_triangles key vectors).1 !! i1 = Some a' ∧ first_with_key key vectors a a'
    ∧ (points_triangles key vectors).1 !! i2 = Some b' ∧ first_with_key key vectors b b'
    ∧ (points_triangles key vectors).1 !! i3 = Some c' ∧ first_with_key key vectors c c'.
Proof.
  intros Hj.
  destruct (points_triangles_spec key vectors) as (ps & ts & E & _ & Hexp & _).
  pose proof (stored_loop_inv vectors) as (_ & _ & Hfirst).
  assert (stored (stored_loop key vectors).1 = ps) as Hps.
  { revert E. unfold points_triangles. by destruct (stored_loop key vectors); intros [= <- _]. }
  rewrite Hps in Hfirst. rewrite E. simpl.
  unfold expand in Hexp. apply mapM_Some in Hexp.
  assert ((key_facet key <$> vectors) !! j
          = Some (key_point key a, key_point key b, key_point key c)) as Hkj
    by (rewrite list_lookup_fmap; unfold facet in *; by rewrite Hj).
  destruct (Forall2_lookup_r _ _ _ _ _ Hexp Hkj) as (t & Ht & Hexp_t).
  destruct t as [|i1 [|i2 [|i3 [|]]]]; cbn -[key_point] in Hexp_t; try done.
  rewrite !list_lookup_fmap in Hexp_t.
  destruct (ps !! i1) as [a'|] eqn:H1; [|done].
  destruct (ps !! i2) as [b'|] eqn:H2; [|done].
  destruct (ps !! i3) as [c'|] eqn:H3; [|done].
  cbn -[key_point] in Hexp_t. injection Hexp_t as Ha Hb Hc.
  exists i1, i2, i3, a', b', c'. split; [done|].
  assert (∀ i v v', ps !! i = Some v' → key_point key v' = key_point key v →
                    first_with_key key vectors v v') as Hfw.
  { intros i v v' Hi Hkey. split; [done|].
    destruct (Hfirst i v' Hi) as (n & Hn & Hbefore).
    exists n. split; [done|]. rewrite <- Hkey. exact Hbefore. }
  split; [done|]. split; [eapply Hfw; [done|unfold key_point; congruence]|].
  split; [done|]. split; [eapply Hfw; [done|unfold key_point; congruence]|].
  split; [done|]. eapply Hfw; [done|unfold key_point; congruence].
Qed.
End StoredOrder.

Section ObjectContents.
Context {coord : Type} `{Countable coord} {scalar : Type}.
Variable key : scalar → coord.
Variable fmt6 : scalar → string.
Variable resolve : string → string.
Implicit Types (fs : gmap string (file (scalar:=scalar))) (p : part) (st : object_state).

Lemma object_step_located_exact fs cm st p st' :
  located resolve fs p = true → object_step key fmt6 resolve fs cm st p = Ok st' →
  ∃ vectors es,
    mesh_of resolve fs p = Some vectors
    ∧ traverse triangle_element (points_triangles key vectors).2 = Ok es
    ∧ st' = ObjectState
              (objects st ++
                 [object_element (object_id st) (object_name p)
                    (default 0 (cm !! part_color p))
                    (vertex_element fmt6 <$> (points_triangles key vectors).1) es])
              (S (object_id st))
              (build_items st ++ [object_id st]).
Proof.
  unfold located, object_step, getitem, object_name, mesh_of.
  destruct (p !! "file") as [f|]; simpl; [|done].
  intros ->. unfold stl_to_vertices_triangles, from_file.
  destruct (fs !! resolve f) as [[vectors| |]|]; simpl; try done.
  destruct (points_triangles key vectors) as [vs ts] eqn:Evt. simpl.
  destruct (traverse triangle_element ts) as [es|] eqn:Ees; simpl; [|done].
  intros [= <-]. exists vectors, es. by rewrite Evt.
Qed.

Lemma object_loop_exact fs cm parts st st' :
  foldM (object_step key fmt6 resolve fs cm) st parts = Ok st' →
  ∃ objs,
    objects st' = objects st ++ objs
    ∧ length objs = length (filter (located resolve fs) parts)
    ∧ ∀ k q, filter (located resolve fs) parts !! k = Some q →
        ∃ vectors es,
          mesh_of resolve fs q = Some vectors
          ∧ traverse triangle_element (points_triangles key vectors).2 = Ok es
          ∧ objs !! k
            = Some (object_element (object_id st + k) (object_name q)
                      (default 0 (cm !! part_color q))
                      (vertex_element fmt6 <$> (points_triangles key vectors).1) es).
Proof.
  revert st. induction parts as [|p parts IH]; intros st; simpl.
  - intros [= <-]. exists []. rewrite app_nil_r. split; [done|]. split; [done|].
    intros k q. by rewrite filter_nil, lookup_nil.
  - destruct (object_step key fmt6 resolve fs cm st p) as [st1|] eqn:Hstep; simpl; [|done].
    intros Hloop. destruct (IH _ Hloop) as (objs & Hobjs & Hlen & Hall).
    destruct (located resolve fs p) eqn:Hloc.
    + destruct (object_step_located_exact _ _ _ _ _ Hloc Hstep)
        as (vectors & es & Hmesh & Hes & ->).
      simpl in *. rewrite filter_cons_True by by rewrite Hloc.
      eexists (_ :: objs). rewrite Hobjs, <- (assoc_L (++)). simpl.
      split; [done|]. split; [by rewrite Hlen|].
      intros [|k] q; simpl.
      * intros [= <-]. exists vectors, es. by rewrite Nat.add_0_r.
      * intros Hq. destruct (Hall k q Hq) as (vectors' & es' & ? & ? & Hk).
        exists vectors', es'. rewrite Hk. by rewrite Nat.add_succ_r.
    + rewrite (object_step_skipped _ _ _ _ _ _ _ _ Hloc Hstep) in *.
      rewrite filter_cons_False by (rewrite Hloc; intros []).
      by exists objs.
Qed.

(** The objects of a finished document, one by one. *)
Lemma build_model_objects parts fs model :
  build_model key fmt6 resolve parts fs = Ok model →
  ∃ objs,
    ET.find model "resources"
    = Some (ET.extend (ET.new "resources")
              (ET.extend (ET.set (ET.new tag_basematerials) "id" "1")
                         (bases (color_loop parts)) :: objs))
    ∧ doc_objects model = Some objs
    ∧ length objs = length (filter (located resolve fs) parts)
    ∧ ∀ k q, filter (located resolve fs) parts !! k = Some q →
        ∃ vectors es i n,
          mesh_of resolve fs q = Some vectors
          ∧ traverse triangle_element (points_triangles key vectors).2 = Ok es
          ∧ bases (color_loop parts) !! i = Some (base_element n (part_color q))
          ∧ objs !! k
            = Some (object_element (2 + k) (object_name q) i
                      (vertex_element fmt6 <$> (points_triangles key vectors).1) es).
Proof.
  intros Hmodel.
  destruct (build_model_shape _ _ _ _ _ _ Hmodel) as (objs' & _ & Hdoc & _).
  apply build_model_Ok in Hmodel as (os & Hloop & ->).
  destruct (object_loop_exact _ _ _ _ _ Hloop) as (objs & Hobjs & Hlen & Hall).
  simpl in Hobjs. exists objs. split; [by rewrite <- Hobjs|].
  assert (objs' = objs) as ->.
  { destruct (object_loop_from _ _ _ _ _ _ _ _ Hloop) as (objs2 & Hobjs2 & _ & _ & Htag & _).
    simpl in Hobjs2. rewrite <- Hobjs2 in Htag.
    rewrite doc_objects_model in Hdoc by done. congruence. }
  split; [done|]. split; [done|].
  intros k q Hq. destruct (Hall k q Hq) as (vectors & es & Hmesh & Hes & Hk).
  destruct (color_loop_registered parts q) as (i & Hi & _ & n & Hn).
  { apply list_elem_of_lookup_2 in Hq. by apply list_elem_of_filter in Hq as [_ ?]. }
  exists vectors, es, i, n. rewrite Hi in Hk. done.
Qed.
End ObjectContents.

Section ObjectExtras.
Context {coord : Type} `{Countable coord} {scalar : Type}.
Variable key : scalar → coord.
Variable fmt6 : scalar → string.
Variable resolve : string → string.
Implicit Types (fs : gmap string (file (scalar:=scalar))) (p : part) (st : object_state).

Lemma vertex_element_shows v : vertex_shows fmt6 (vertex_element fmt6 v) v.
Proof. destruct v as [[x y] z]. by repeat split. Qed.

(** X6.  The object of the k-th located part refers to the basematerials
    block by its id, and its pindex is the position of the base entry that
    shows this part's colour: the fallback index 0 of the lookup is never
    what decides. *)
Theorem object_colour parts fs model k q :
  build_model key fmt6 resolve parts fs = Ok model →
  filter (located resolve fs) parts !! k = Some q →
  ∃ basematerials objs obj i b,
    doc_basematerials model = Some basematerials
    ∧ doc_objects model = Some objs
    ∧ objs !! k = Some obj
    ∧ ET.get obj "pid" = ET.get basematerials "id"
    ∧ ET.get obj "pindex" = Some (str i)
    ∧ ET.findall basematerials tag_base !! i = Some b
    ∧ ET.get b "displaycolor" = Some (part_color q).
Proof.
  intros Hmodel Hq.
  destruct (build_model_shape _ _ _ _ _ _ Hmodel) as (objs' & Hbm & Hobjs' & _).
  destruct (build_model_objects _ _ _ _ _ _ Hmodel) as (objs & _ & Hobjs & _ & Hall).
  destruct (Hall k q Hq) as (vectors & es & i & n & _ & _ & Hi & Hk).
  eexists _, objs, _, i, (base_element n (part_color q)).
  split; [exact Hbm|]. split; [done|]. split; [exact Hk|].
  split; [reflexivity|]. split; [reflexivity|]. split; [|reflexivity].
  unfold ET.findall. simpl. rewrite findall_same_tag; [done|].
  apply (color_loop_inv parts).
Qed.

(** X7.  Reading the document back: in the object of the k-th located part,
    the j-th triangle element names three vertex elements of that object,
    and each carries the formatted scalars of the tuple the table stored
    for the corner: the first corner of the part's mesh that has the
    corner's key.  That is the corner itself unless an earlier corner with
    the same key was written with other scalars (a zero of the other
    sign). *)
Theorem object_geometry parts fs model k q vectors j a b c :
  build_model key fmt6 resolve parts fs = Ok model →
  filter (located resolve fs) parts !! k = Some q →
  mesh_of resolve fs q = Some vectors →
  vectors !! j = Some (a, b, c) →
  ∃ objs obj mesh_elem vertices_elem triangles_elem t i1 i2 i3 e1 e2 e3 a' b' c',
    doc_objects model = Some objs
    ∧ objs !! k = Some obj
    ∧ ET.find obj "mesh" = Some mesh_elem
    ∧ ET.find mesh_elem "vertices" = Some vertices_elem
    ∧ ET.find mesh_elem "triangles" = Some triangles_elem
    ∧ ET.children triangles_elem !! j = Some t
    ∧ ET.get t "v1" = Some (str i1)
    ∧ ET.get t "v2" = Some (str i2)
    ∧ ET.get t "v3" = Some (str i3)
    ∧ ET.children vertices_elem !! i1 = Some e1
    ∧ vertex_shows fmt6 e1 a' ∧ first_with_key key vectors a a'
    ∧ ET.children vertices_elem !! i2 = Some e2
    ∧ vertex_shows fmt6 e2 b' ∧ first_with_key key vectors b b'
    ∧ ET.children vertices_elem !! i3 = Some e3
    ∧ vertex_shows fmt6 e3 c' ∧ first_with_key key vectors c c'.
Proof.
  intros Hmodel Hq Hmesh Hj.
  destruct (build_model_objects _ _ _ _ _ _ Hmodel) as (objs & _ & Hobjs & _ & Hall).
  destruct (Hall k q Hq) as (vectors' & es & i & n & Hmesh' & Hes & _ & Hk).
  assert (vectors' = vectors) as -> by congruence.
  destruct (points_triangles_lookup key vectors j a b c Hj)
    as (i1 & i2 & i3 & a' & b' & c' & Ht & H1 & Ha & H2 & Hb & H3 & Hc).
  apply traverse_Ok in Hes.
  destruct (Forall2_lookup_l _ _ _ _ _ Hes Ht) as (t & Hjt & Helem).
  simpl in Helem. injection Helem as <-.
  eexists objs, _, _, _, _, _, i1, i2, i3,
    (vertex_element fmt6 a'), (vertex_element fmt6 b'), (vertex_element fmt6 c'),
    a', b', c'.
  split; [done|]. split; [exact Hk|].
  split; [reflexivity|]. split; [reflexivity|]. split; [reflexivity|].
  split; [exact Hjt|]. split; [reflexivity|]. split; [reflexivity|].
  split; [reflexivity|]. simpl. rewrite !list_lookup_fmap, H1, H2, H3. simpl.
  split; [done|]. split; [apply vertex_element_shows|]. split; [done|].
  split; [done|]. split; [apply vertex_element_shows|]. split; [done|].
  split; [done|]. split; [apply vertex_element_shows|]. done.
Qed.

(** X8.  The object of the k-th located part has one mesh child holding a
    vertices block and a triangles block, in that order; the triangles block
    has one element per triangle of the part's mesh and the vertices block
    one element per distinct corner key (both empty for an empty mesh). *)
Theorem object_block_sizes parts fs model k q vectors :
  build_model key fmt6 resolve parts fs = Ok model →
  filter (located resolve fs) parts !! k = Some q →
  mesh_of resolve fs q = Some vectors →
  ∃ objs obj mesh_elem vertices_elem triangles_elem,
    doc_objects model = Some objs
    ∧ objs !! k = Some obj
    ∧ ET.children obj = [mesh_elem]
    ∧ ET.children mesh_elem = [vertices_elem; triangles_elem]
    ∧ ET.tag mesh_elem = "mesh"
    ∧ ET.tag vertices_elem = "vertices"
    ∧ ET.tag triangles_elem = "triangles"
    ∧ length (ET.children triangles_elem) = length vectors
    ∧ length (ET.children vertices_elem)
      = size (list_to_set (C:=gset vertex) (corners (key_facet key <$> vectors))).
Proof.
  intros Hmodel Hq Hmesh.
  destruct (build_model_objects _ _ _ _ _ _ Hmodel) as (objs & _ & Hobjs & _ & Hall).
  destruct (Hall k q Hq) as (vectors' & es & i & n & Hmesh' & Hes & _ & Hk).
  assert (vectors' = vectors) as -> by congruence.
  eexists objs, _, _, _, _. split; [done|]. split; [exact Hk|].
  do 5 (split; [reflexivity|]). simpl.
  destruct (points_triangles_spec key vectors) as (ps & ts & E & Hnd & Hexp & Hel & _).
  rewrite E in Hes |- *. simpl in *. split.
  - apply traverse_Ok, Forall2_length in Hes. rewrite <- Hes.
    apply expand_length in Hexp. by rewrite length_fmap in Hexp.
  - rewrite length_fmap, <- (length_fmap (key_point key) ps).
    rewrite <- (size_list_to_set (C:=gset vertex) (key_point key <$> ps)) by done.
    f_equal. apply set_eq. intros x. rewrite !elem_of_list_to_set. apply Hel.
Qed.

(** X9.  Every child of resources carries an id, and these ids are pairwise
    distinct: the basematerials block has 1 and the objects count up from
    2. *)
Theorem resource_ids_distinct parts fs model :
  build_model key fmt6 resolve parts fs = Ok model →
  ∃ resources ids,
    ET.find model "resources" = Some resources
    ∧ (λ e, ET.get e "id") <$> ET.children resources = Some <$> ids
    ∧ NoDup ids.
Proof.
  intros Hmodel.
  destruct (build_model_shape _ _ _ _ _ _ Hmodel) as (objs' & _ & Hobjs' & _ & Hids & _).
  destruct (build_model_objects _ _ _ _ _ _ Hmodel) as (objs & Hres & Hobjs & _).
  assert (objs' = objs) as -> by congruence.
  eexists _, (str <$> seq 1 (S (length (filter (located resolve fs) parts)))).
  split; [exact Hres|]. split.
  - transitivity
      ((λ e, ET.get e "id")
         <$> (ET.extend (ET.set (ET.new tag_basematerials) "id" "1")
                        (bases (color_loop parts)) :: objs)); [reflexivity|].
    rewrite fmap_cons, Hids. cbn [seq]. rewrite !fmap_cons.
    f_equal. by rewrite <- !list_fmap_compose.
  - apply NoDup_fmap_2; [|apply NoDup_seq].
    unfold str. apply _.
Qed.
End ObjectExtras.

Section Failures.
Context {coord : Type} `{Countable coord} {scalar : Type}.
Variable key : scalar → coord.
Variable fmt6 : scalar → string.
Variable toprettyxml : ET.Element → option string.
Variable resolve : string → string.
Variable writable : gmap string (file (scalar:=scalar)) → string → bool.
Implicit Types (fs : gmap string (file (scalar:=scalar))) (p : part) (st : object_state).

Lemma foldM_app {S A} (body : S → A → result S) s (l1 l2 : list A) :
  foldM body s (l1 ++ l2) = foldM body s l1 ≫= λ s', foldM body s' l2.
Proof.
  revert s. induction l1 as [|x l1 IH]; intros s; simpl; [done|].
  destruct (body s x) as [s'|e]; simpl; [apply IH|done].
Qed.

Lemma object_step_Raise fs cm st p e :
  object_step key fmt6 resolve fs cm st p = Raise e → part_failure resolve fs p e.
Proof.
  unfold object_step, getitem, part_failure, path_exists.
  destruct (p !! "file") as [f|]; simpl; [|intros [= <-]; by left].
  case_bool_decide as Hex; [|done].
  unfold stl_to_vertices_triangles, from_file.
  destruct (fs !! resolve f) as [[vectors| |]|] eqn:Hf; simpl.
  - destruct (points_triangles_spec key vectors) as (ps & ts & -> & _ & Hexp & _).
    simpl. destruct (triangle_elements_spec _ ts _ Hexp) as (es & -> & _).
    done.
  - intros [= <-]. right. exists f.
    rewrite Hf. split; [done|]. split; [done|]. split; [by eexists|]. by intros vectors.
  - intros [= <-]. right. exists f.
    rewrite Hf. split; [done|]. split; [done|]. split; [by eexists|]. by intros vectors.
  - by destruct Hex.
Qed.

Lemma object_loop_Raise fs cm parts st e :
  foldM (object_step key fmt6 resolve fs cm) st parts = Raise e →
  ∃ before p after,
    parts = before ++ p :: after
    ∧ Forall (λ q, ∀ e', ¬ part_failure resolve fs q e') before
    ∧ part_failure resolve fs p e.
Proof.
  revert st. induction parts as [|p parts IH]; intros st; simpl; [done|].
  destruct (object_step key fmt6 resolve fs cm st p) as [st'|e'] eqn:Hstep; simpl.
  - intros (before & q & after & -> & Hbefore & Hq)%IH.
    exists (p :: before), q, after. split; [done|]. split; [|done].
    constructor; [|done]. intros e' Hfail.
    unfold object_step, getitem, path_exists, stl_to_vertices_triangles, from_file in Hstep.
    destruct Hfail as [[Hnone _]|(f & Hf & _ & Hsome & Hmesh)].
    + by rewrite Hnone in Hstep.
    + rewrite Hf in Hstep. simpl in Hstep.
      rewrite bool_decide_eq_true_2 in Hstep by done.
      destruct (fs !! resolve f) as [[vectors| |]|] eqn:Hfs; simpl in Hstep; try done.
      all: first [by eapply Hmesh | by destruct Hsome | idtac].
  - intros [= <-]. exists [], p, parts. split; [done|]. split; [constructor|].
    by eapply object_step_Raise.
Qed.

Lemma create_3mf_Raise parts out fs e :
  create_3mf key fmt6 toprettyxml resolve writable parts out fs = Raise e →
  (∃ before p after,
     parts = before ++ p :: after
     ∧ Forall (λ q, ∀ e', ¬ part_failure resolve fs q e') before
     ∧ part_failure resolve fs p e)
  ∨ (e = XmlError
     ∧ ∃ model, build_model key fmt6 resolve parts fs = Ok model
                ∧ toprettyxml model = None)
  ∨ (e = OSError out
     ∧ writable fs out = false
     ∧ ∃ model, build_model key fmt6 resolve parts fs = Ok model
                ∧ is_Some (toprettyxml model)).
Proof.
  unfold create_3mf, build_model, object_loop, model_document.
  destruct (foldM _ _ _) as [os|e'] eqn:Hloop; simpl.
  - destruct (toprettyxml _) as [xml|] eqn:Hxml; simpl.
    + destruct (writable fs out) eqn:Hw; [done|].
      intros [= <-]. right. right. split; [done|]. split; [done|].
      eexists. split; [done|]. by eexists.
    + intros [= <-]. right. left. split; [done|]. by eexists.
  - intros [= <-]. left. by eapply object_loop_Raise.
Qed.

(** X10.  When [create_3mf] raises, it is for the first part that lacks a
    ['file'] entry (KeyError) or names a file that exists but is no mesh
    (the decoder's error, with that path); or because serialising the
    finished tree failed; or, the tree built and serialised, because the
    archive could not be opened for writing (the operating system's error,
    with the output path).  It is never an index error and never an exit. *)
Theorem create_3mf_failures parts out fs e :
  create_3mf key fmt6 toprettyxml resolve writable parts out fs = Raise e →
  ((∃ before p after,
      parts = before ++ p :: after
      ∧ Forall (λ q, ∀ e', ¬ part_failure resolve fs q e') before
      ∧ part_failure resolve fs p e)
   ∨ (e = XmlError
      ∧ ∃ model, build_model key fmt6 resolve parts fs = Ok model
                 ∧ toprettyxml model = None)
   ∨ (e = OSError out
      ∧ writable fs out = false
      ∧ ∃ model, build_model key fmt6 resolve parts fs = Ok model
                 ∧ is_Some (toprettyxml model)))
  ∧ e ≠ IndexError
  ∧ ∀ code, e ≠ SystemExit code.
Proof.
  intros Hrun%create_3mf_Raise. split; [done|].
  destruct Hrun as [(_ & p & _ & _ & _ & [[_ ->]|(f & _ & -> & _)])|[[-> _]|[-> _]]];
    done.
Qed.

Lemma object_step_Ok_readable fs cm st p st' :
  object_step key fmt6 resolve fs cm st p = Ok st' → readable resolve fs p.
Proof.
  unfold object_step, getitem, path_exists, stl_to_vertices_triangles, from_file, readable.
  destruct (p !! "file") as [f|]; simpl; [|done].
  intros Hstep. exists f. split; [done|].
  case_bool_decide as Hex.
  - destruct (fs !! resolve f) as [[vectors| |]|]; simpl in Hstep; try done.
    right. by eexists.
  - left. by apply eq_None_not_Some.
Qed.

Lemma object_loop_Ok_readable fs cm parts st st' :
  foldM (object_step key fmt6 resolve fs cm) st parts = Ok st' → Forall (readable resolve fs) parts.
Proof.
  revert st. induction parts as [|p parts IH]; intros st; simpl; [by constructor|].
  destruct (object_step key fmt6 resolve fs cm st p) as [st1|] eqn:Hstep; simpl; [|done].
  intros Hloop. constructor; [by eapply object_step_Ok_readable|by eapply IH].
Qed.

(** X11.  [create_3mf] returns exactly when every part names a file, every
    file found is a mesh, the finished tree serialises and the archive can
    be opened for writing; absent files do not stand in the way. *)
Theorem create_3mf_succeeds_iff parts out fs :
  (∃ r, create_3mf key fmt6 toprettyxml resolve writable parts out fs = Ok r)
  ↔ Forall (readable resolve fs) parts
    ∧ (∀ model, build_model key fmt6 resolve parts fs = Ok model →
                is_Some (toprettyxml model))
    ∧ writable fs out = true.
Proof.
  split.
  - intros [r (model & xml & Hmodel & Hxml & Hw & _)%create_3mf_Ok]. split; [|split].
    + apply build_model_Ok in Hmodel as (os & Hloop & _).
      by eapply object_loop_Ok_readable.
    + intros model' Hmodel'. assert (model' = model) as -> by congruence. by eexists.
    + done.
  - intros (Hparts & Hxml & Hw).
    destruct (build_model_succeeds key fmt6 resolve parts fs Hparts) as [model Hmodel].
    destruct (Hxml model Hmodel) as [xml Hxml'].
    unfold create_3mf, model_document. rewrite Hmodel. simpl. rewrite Hxml'. simpl.
    rewrite Hw. by eexists.
Qed.

Lemma object_step_no_file fs cm st p :
  p !! "file" = None → object_step key fmt6 resolve fs cm st p = Raise (KeyError "file").
Proof. intros Hp. unfold object_step, getitem. by rewrite Hp. Qed.

(** X12.  A part without a ['file'] entry makes [create_3mf] raise KeyError
    for that key once the parts before it went through, whatever follows
    it; nothing is written. *)
Theorem missing_file_key_raises before p after out fs :
  Forall (readable resolve fs) before →
  p !! "file" = None →
  create_3mf key fmt6 toprettyxml resolve writable (before ++ p :: after) out fs = Raise (KeyError "file").
Proof.
  intros Hbefore Hp. unfold create_3mf, build_model, object_loop.
  rewrite foldM_app.
  destruct (object_loop_succeeds key fmt6 resolve before fs
              (color_map (color_loop (before ++ p :: after))) object_init Hbefore)
    as [st ->].
  cbn -[object_step]. by rewrite object_step_no_file.
Qed.
End Failures.

Section Document.

Lemma join_split_lines s : join_lines (split_lines s) = s.
Proof.
  induction s as [|c s IH]; [done|]. simpl.
  destruct (split_lines_cons s) as (h & t & Hs). rewrite Hs in IH |- *.
  destruct (Ascii.eqb c (Ascii.ascii_of_nat 10)) eqn:Hc.
  - apply Ascii.eqb_eq in Hc as ->. change (join_lines (EmptyString :: h :: t))
      with (EmptyString +:+ newline +:+ join_lines (h :: t)).
    by rewrite IH.
  - destruct t as [|h' t]; simpl in *; by rewrite <- IH.
Qed.

Lemma split_lines_single s : has_newline s = false → split_lines s = [s].
Proof.
  induction s as [|c s IH]; [done|]. simpl.
  intros [Hc Hs]%orb_false_iff. by rewrite Hc, (IH Hs).
Qed.

Variable toprettyxml : ET.Element → option string.

(** X13.  Lines 141-146 replace the first line of the pretty-printed text by
    the UTF-8 declaration and keep the rest unchanged; a pretty-printed text
    of a single line leaves only the declaration; a serialiser failure is
    raised as it is. *)
Theorem model_document_first_line model :
  (∀ first rest,
     toprettyxml model = Some (first +:+ newline +:+ rest) →
     has_newline first = false →
     model_document toprettyxml model = Ok (xml_declaration +:+ newline +:+ rest))
  ∧ (∀ only,
       toprettyxml model = Some only →
       has_newline only = false →
       model_document toprettyxml model = Ok (xml_declaration +:+ newline))
  ∧ (toprettyxml model = None → model_document toprettyxml model = Raise XmlError).
Proof.
  unfold model_document, mbind, result_bind, from_option. split; [|split].
  - intros first rest -> Hfirst.
    rewrite split_lines_first by done. cbn [tail].
    by rewrite join_split_lines.
  - intros only -> Honly. by rewrite split_lines_single by done.
  - by intros ->.
Qed.
End Document.

Section Main.
Context {coord : Type} `{Countable coord} {scalar : Type}.
Variable key : scalar → coord.
Variable fmt6 : scalar → string.
Variable toprettyxml : ET.Element → option string.
Variable resolve : string → string.
Variable writable : gmap string (file (scalar:=scalar)) → string → bool.
Implicit Types (fs : gmap string (file (scalar:=scalar))) (p : part).

Lemma filter_located_idemp fs (parts : list part) :
  filter (located resolve fs) (filter (located resolve fs) parts) = filter (located resolve fs) parts.
Proof.
  induction parts as [|p parts IH]; [done|].
  destruct (located resolve fs p) eqn:Hp.
  - rewrite filter_cons_True by by rewrite Hp.
    rewrite filter_cons_True by by rewrite Hp. by rewrite IH.
  - by rewrite filter_cons_False by (rewrite Hp; intros []).
Qed.

Lemma source_exists_located fs p :
  is_Some (p !! "file") → source_exists resolve fs p = Ok (located resolve fs p).
Proof. intros [f Hf]. unfold source_exists, located, getitem. by rewrite Hf. Qed.

Lemma filterM_source_exists fs (parts : list part) :
  Forall (λ p, is_Some (p !! "file")) parts →
  filterM (source_exists resolve fs) parts = Ok (filter (located resolve fs) parts).
Proof.
  induction 1 as [|p parts Hp _ IH]; [done|]. cbn [filterM].
  rewrite (source_exists_located fs p Hp), IH.
  destruct (located resolve fs p) eqn:Hloc.
  - rewrite filter_cons_True by by rewrite Hloc. done.
  - rewrite filter_cons_False by (rewrite Hloc; intros []). done.
Qed.

Lemma main_parts_have_files : Forall (λ p : part, is_Some (p !! "file")) main_parts.
Proof. repeat constructor; by eexists. Qed.

(** X14.  Running the file, on any file system.  With a dependency missing
    it exits with status 1 before anything else.  Otherwise it either
    converts exactly the parts whose file exists (at least one, hence at
    least one object, one per such part), the archive could be opened, and
    the package is what is now found at nfc_sign_multicolor.3mf, nothing
    else being touched; or it exits with status 1 because no file exists;
    or it fails on a file that is no mesh, on serialisation, or on opening
    the archive for writing.  It never raises KeyError. *)
Theorem script_outcomes imports_ok fs :
  match script key fmt6 toprettyxml resolve writable imports_ok fs with
  | Ok fs' =>
      imports_ok = true
      ∧ ∃ model objs doc,
          build_model key fmt6 resolve (filter (located resolve fs) main_parts) fs = Ok model
          ∧ doc_objects model = Some objs
          ∧ length objs = length (filter (located resolve fs) main_parts)
          ∧ 0 < length objs
          ∧ model_document toprettyxml model = Ok doc
          ∧ writable fs default_output_file = true
          ∧ fs' = <[resolve default_output_file := package doc]> fs
  | Raise e =>
      (e = SystemExit 1
       ∧ (imports_ok = false ∨ filter (located resolve fs) main_parts = []))
      ∨ (imports_ok = true
         ∧ filter (located resolve fs) main_parts ≠ []
         ∧ ((∃ f, e = DecodeError f ∧ is_Some (fs !! resolve f))
            ∨ e = XmlError
            ∨ (e = OSError default_output_file
               ∧ writable fs default_output_file = false)))
  end.
Proof.
  unfold script. destruct imports_ok; [|left; split; [done|by left]].
  unfold main. rewrite (filterM_source_exists fs main_parts main_parts_have_files).
  simpl. destruct (filter (located resolve fs) main_parts) as [|p ps] eqn:Hparts.
  - left. split; [done|by right].
  - rewrite <- Hparts.
    destruct (create_3mf key fmt6 toprettyxml resolve writable _ default_output_file fs)
      as [[o fs']|e] eqn:Hrun; simpl.
    + destruct (create_3mf_Ok _ _ _ _ _ _ _ _ _ Hrun)
        as (model & xml & Hmodel & Hxml & Hw & [= -> ->]).
      destruct (build_model_shape _ _ _ _ _ _ Hmodel) as (objs & _ & Hobjs & _ & Hids & _).
      split; [done|].
      exists model, objs. eexists. split; [done|]. split; [done|].
      apply (f_equal length) in Hids. rewrite !length_fmap, length_seq in Hids.
      rewrite filter_located_idemp in Hids.
      split; [done|]. split; [rewrite Hids, Hparts; simpl; lia|].
      split; [|done]. unfold model_document. by rewrite Hxml.
    + right. split; [done|]. split; [by rewrite Hparts|].
      destruct (create_3mf_Raise _ _ _ _ _ _ _ _ _ Hrun)
        as [Hpart|[[-> _]|(-> & Hw & _)]]; [|by right; left|by right; right].
      destruct Hpart as (before & q & after & Heq & _ & [[Hnone _]|(f & _ & -> & Hsome & _)]).
      * exfalso. assert (q ∈ main_parts) as Hq.
        { assert (q ∈ filter (located resolve fs) main_parts) as Hin
            by (rewrite Heq; apply elem_of_app; right; by left).
          by apply list_elem_of_filter in Hin as [_ ?]. }
        pose proof main_parts_have_files as Hfiles.
        rewrite Forall_forall in Hfiles. destruct (Hfiles q Hq) as [? ?]. congruence.
      * left. by exists f.
Qed.
End Main.

(** * Worked instances of the further properties *)


Lemma color_append_stable_witness :
  color_map (color_loop Sample.ghost_only) !! "#FF0000" = Some 0
  ∧ color_map (color_loop (Sample.ghost_only ++ Sample.three_parts)) !! "#FF0000" = Some 0.
Proof.
  assert (color_map (color_loop Sample.ghost_only) !! "#FF0000" = Some 0) as Hghost
    by (vm_compute; reflexivity).
  split; [exact Hghost|].
  exact (proj2 (color_append_stable Sample.ghost_only Sample.three_parts) _ _ Hghost).
Defined.

Lemma model_document_first_line_witness :
  Sample.toprettyxml (ET.new "model")
  = Some (("<?xml version=" +:+ dquote +:+ "1.0" +:+ dquote +:+ " ?>")
          +:+ newline +:+ ("<model/>" +:+ newline))
  ∧ has_newline ("<?xml version=" +:+ dquote +:+ "1.0" +:+ dquote +:+ " ?>") = false
  ∧ model_document Sample.toprettyxml (ET.new "model")
    = Ok (xml_declaration +:+ newline +:+ ("<model/>" +:+ newline)).
Proof.
  split; [reflexivity|]. split; [reflexivity|].
  apply (proj1 (model_document_first_line Sample.toprettyxml (ET.new "model"))
           ("<?xml version=" +:+ dquote +:+ "1.0" +:+ dquote +:+ " ?>")
           ("<model/>" +:+ newline));
    reflexivity.
Defined.

Lemma object_colour_witness :
  build_model Sample.key Sample.fmt6 Sample.resolve Sample.three_parts Sample.disk = Ok Sample.three_model
  ∧ filter (located Sample.resolve Sample.disk) Sample.three_parts !! 1 = Some Sample.stand
  ∧ ∃ basematerials objs obj i b,
      doc_basematerials Sample.three_model = Some basematerials
      ∧ doc_objects Sample.three_model = Some objs
      ∧ objs !! 1 = Some obj
      ∧ ET.get obj "pid" = ET.get basematerials "id"
      ∧ ET.get obj "pindex" = Some (str i)
      ∧ ET.findall basematerials tag_base !! i = Some b
      ∧ ET.get b "displaycolor" = Some (part_color Sample.stand).
Proof.
  split; [vm_compute; reflexivity|]. split; [vm_compute; reflexivity|].
  apply (object_colour Sample.key Sample.fmt6 Sample.resolve Sample.three_parts Sample.disk
           Sample.three_model 1 Sample.stand); vm_compute; reflexivity.
Defined.

Lemma object_geometry_witness :
  build_model Sample.key Sample.fmt6 Sample.resolve [Sample.zeros] Sample.disk
  = Ok Sample.zeros_model
  ∧ filter (located Sample.resolve Sample.disk) [Sample.zeros] !! 0 = Some Sample.zeros
  ∧ mesh_of Sample.resolve Sample.disk Sample.zeros = Some Sample.two_zeros
  ∧ Sample.two_zeros !! 1 = Some (Sample.spt 0 0 0, Sample.spt 0 1 0, Sample.spt 0 0 1)
  ∧ ∃ objs obj mesh_elem vertices_elem triangles_elem t i1 i2 i3 e1 e2 e3 a' b' c',
      doc_objects Sample.zeros_model = Some objs
      ∧ objs !! 0 = Some obj
      ∧ ET.find obj "mesh" = Some mesh_elem
      ∧ ET.find mesh_elem "vertices" = Some vertices_elem
      ∧ ET.find mesh_elem "triangles" = Some triangles_elem
      ∧ ET.children triangles_elem !! 1 = Some t
      ∧ ET.get t "v1" = Some (str i1)
      ∧ ET.get t "v2" = Some (str i2)
      ∧ ET.get t "v3" = Some (str i3)
      ∧ ET.children vertices_elem !! i1 = Some e1
      ∧ vertex_shows Sample.fmt6 e1 a'
      ∧ first_with_key Sample.key Sample.two_zeros (Sample.spt 0 0 0) a'
      ∧ ET.children vertices_elem !! i2 = Some e2
      ∧ vertex_shows Sample.fmt6 e2 b'
      ∧ first_with_key Sample.key Sample.two_zeros (Sample.spt 0 1 0) b'
      ∧ ET.children vertices_elem !! i3 = Some e3
      ∧ vertex_shows Sample.fmt6 e3 c'
      ∧ first_with_key Sample.key Sample.two_zeros (Sample.spt 0 0 1) c'.
Proof.
  split; [vm_compute; reflexivity|]. split; [vm_compute; reflexivity|].
  split; [vm_compute; reflexivity|]. split; [reflexivity|].
  apply (object_geometry Sample.key Sample.fmt6 Sample.resolve [Sample.zeros] Sample.disk
           Sample.zeros_model 0 Sample.zeros Sample.two_zeros 1);
    vm_compute; reflexivity.
Defined.

(** The second triangle of [Sample.two_zeros] starts at the origin written
    with a positive zero; its first index is 0, and vertex 0 of the object
    shows the negative zero the first triangle wrote there. *)
Example negative_zero_kept :
  ∃ objs obj mesh_elem vertices_elem triangles_elem t e,
    doc_objects Sample.zeros_model = Some objs
    ∧ objs !! 0 = Some obj
    ∧ ET.find obj "mesh" = Some mesh_elem
    ∧ ET.find mesh_elem "vertices" = Some vertices_elem
    ∧ ET.find mesh_elem "triangles" = Some triangles_elem
    ∧ ET.children triangles_elem !! 1 = Some t
    ∧ ET.get t "v1" = Some "0"
    ∧ ET.children vertices_elem !! 0 = Some e
    ∧ ET.get e "x" = Some "-0.000000"
    ∧ Sample.fmt6 (Sample.of_Z 0) = "0.000000".
Proof. do 7 eexists. repeat split; vm_compute; reflexivity. Qed.

Lemma object_block_sizes_witness :
  build_model Sample.key Sample.fmt6 Sample.resolve Sample.three_parts Sample.disk = Ok Sample.three_model
  ∧ filter (located Sample.resolve Sample.disk) Sample.three_parts !! 1 = Some Sample.stand
  ∧ mesh_of Sample.resolve Sample.disk Sample.stand = Some Sample.stored_square
  ∧ ∃ objs obj mesh_elem vertices_elem triangles_elem,
      doc_objects Sample.three_model = Some objs
      ∧ objs !! 1 = Some obj
      ∧ ET.children obj = [mesh_elem]
      ∧ ET.children mesh_elem = [vertices_elem; triangles_elem]
      ∧ ET.tag mesh_elem = "mesh"
      ∧ ET.tag vertices_elem = "vertices"
      ∧ ET.tag triangles_elem = "triangles"
      ∧ length (ET.children triangles_elem) = length Sample.stored_square
      ∧ length (ET.children vertices_elem)
        = size (list_to_set (C:=gset vertex)
                  (corners (key_facet Sample.key <$> Sample.stored_square))).
Proof.
  split; [vm_compute; reflexivity|]. split; [vm_compute; reflexivity|].
  split; [vm_compute; reflexivity|].
  apply (object_block_sizes Sample.key Sample.fmt6 Sample.resolve Sample.three_parts Sample.disk
           Sample.three_model 1 Sample.stand Sample.stored_square);
    vm_compute; reflexivity.
Defined.

Lemma resource_ids_distinct_witness :
  build_model Sample.key Sample.fmt6 Sample.resolve Sample.three_parts Sample.disk = Ok Sample.three_model
  ∧ ∃ resources ids,
      ET.find Sample.three_model "resources" = Some resources
      ∧ (λ e, ET.get e "id") <$> ET.children resources = Some <$> ids
      ∧ NoDup ids.
Proof.
  split; [vm_compute; reflexivity|].
  apply (resource_ids_distinct Sample.key Sample.fmt6 Sample.resolve Sample.three_parts Sample.disk).
  vm_compute. reflexivity.
Defined.

Lemma create_3mf_failures_witness :
  create_3mf Sample.key Sample.fmt6 Sample.toprettyxml Sample.resolve Sample.writable
    Sample.three_parts "nodir/out.3mf" Sample.disk
  = Raise (OSError "nodir/out.3mf")
  ∧ ((∃ before p after,
        Sample.three_parts = before ++ p :: after
        ∧ Forall (λ q, ∀ e', ¬ part_failure Sample.resolve Sample.disk q e') before
        ∧ part_failure Sample.resolve Sample.disk p (OSError "nodir/out.3mf"))
     ∨ (OSError "nodir/out.3mf" = XmlError
        ∧ ∃ model, build_model Sample.key Sample.fmt6 Sample.resolve
                     Sample.three_parts Sample.disk = Ok model
                   ∧ Sample.toprettyxml model = None)
     ∨ (OSError "nodir/out.3mf" = OSError "nodir/out.3mf"
        ∧ Sample.writable Sample.disk "nodir/out.3mf" = false
        ∧ ∃ model, build_model Sample.key Sample.fmt6 Sample.resolve
                     Sample.three_parts Sample.disk = Ok model
                   ∧ is_Some (Sample.toprettyxml model)))
  ∧ OSError "nodir/out.3mf" ≠ IndexError
  ∧ ∀ code, OSError "nodir/out.3mf" ≠ SystemExit code.
Proof.
  assert (create_3mf Sample.key Sample.fmt6 Sample.toprettyxml Sample.resolve
            Sample.writable Sample.three_parts "nodir/out.3mf" Sample.disk
          = Raise (OSError "nodir/out.3mf")) as Hrun
    by (vm_compute; reflexivity).
  split; [exact Hrun|].
  exact (create_3mf_failures Sample.key Sample.fmt6 Sample.toprettyxml Sample.resolve
           Sample.writable Sample.three_parts "nodir/out.3mf" Sample.disk _ Hrun).
Defined.

Lemma missing_file_key_raises_witness :
  Forall (readable Sample.resolve Sample.disk) Sample.three_parts
  ∧ Sample.nameless !! "file" = None
  ∧ create_3mf Sample.key Sample.fmt6 Sample.toprettyxml Sample.resolve Sample.writable
      (Sample.three_parts ++ Sample.nameless :: Sample.ghost_only) "out.3mf" Sample.disk
    = Raise (KeyError "file").
Proof.
  assert (Forall (readable Sample.resolve Sample.disk) Sample.three_parts) as Hparts.
  { repeat constructor.
    - exists "a.stl". split; [reflexivity|]. right. by eexists.
    - exists "b.stl". split; [reflexivity|]. by left.
    - exists "c.stl". split; [reflexivity|]. right. by eexists. }
  split; [exact Hparts|]. split; [reflexivity|].
  apply (missing_file_key_raises Sample.key Sample.fmt6 Sample.toprettyxml Sample.resolve Sample.writable); [exact Hparts|].
  reflexivity.
Defined.

Lemma create_3mf_succeeds_iff_witness :
  Forall (readable Sample.resolve Sample.disk) Sample.ghost_only
  ∧ Sample.writable Sample.disk "out.3mf" = true
  ∧ (∃ r, create_3mf Sample.key Sample.fmt6 Sample.toprettyxml Sample.resolve
            Sample.writable Sample.ghost_only "out.3mf" Sample.disk = Ok r)
  ∧ ¬ (∃ r, create_3mf Sample.key Sample.fmt6 Sample.toprettyxml Sample.resolve
              Sample.writable Sample.ghost_only "nodir/out.3mf" Sample.disk = Ok r).
Proof.
  assert (Forall (readable Sample.resolve Sample.disk) Sample.ghost_only) as Hparts.
  { repeat constructor. exists "b.stl". split; [reflexivity|]. by left. }
  split; [exact Hparts|]. split; [reflexivity|]. split.
  - apply (create_3mf_succeeds_iff Sample.key Sample.fmt6 Sample.toprettyxml
             Sample.resolve Sample.writable).
    split; [exact Hparts|]. split; [|reflexivity]. intros model _. by eexists.
  - intros Hrun.
    apply (create_3mf_succeeds_iff Sample.key Sample.fmt6 Sample.toprettyxml
             Sample.resolve Sample.writable) in Hrun as (_ & _ & Hw).
    discriminate Hw.
Defined.
